(** * The Analyzer View of the AI nutrition analyzer (src/src/App.js)

    A shallow embedding of the [NutritionAnalyzer] component: its two
    request handlers [analyzeFood] and [handleQuickAnalysis], the score
    helpers and the inline nutrient-status expression, together with the
    parts of the JavaScript runtime they call ([String.prototype.trim],
    [String.prototype.toLowerCase], [encodeURIComponent], truthiness,
    number comparison). *)

From Stdlib Require Import String Ascii List NArith QArith Bool Lia.
Import ListNotations.

Set Implicit Arguments.
Set Warnings "-register-all".


(** ** JavaScript strings

    A JavaScript string is a sequence of UTF-16 code units; each code unit is
    a number below [65536]. *)

Definition jsstring := list N.

(** An ASCII literal of the source, as code units. *)
Definition lit (s : string) : jsstring :=
  List.map N_of_ascii (list_ascii_of_string s).

Definition jsstring_eqb (a b : jsstring) : bool :=
  if list_eq_dec N.eq_dec a b then true else false.

(** A string is truthy exactly when it is not empty. *)
Definition str_truthy (s : jsstring) : bool :=
  match s with [] => false | _ :: _ => true end.

(** [a || b] on strings. *)
Definition str_or (a b : jsstring) : jsstring :=
  if str_truthy a then a else b.

(** ECMAScript WhiteSpace and LineTerminator code points, the characters
    [trim] strips: TAB, LF, VT, FF, CR, SP, NBSP, the Unicode space
    separators, LS, PS and the byte order mark. *)
Definition isWhiteSpace (c : N) : bool :=
  ((9 <=? c) && (c <=? 13)
   || (c =? 32) || (c =? 160) || (c =? 5760)
   || ((8192 <=? c) && (c <=? 8202))
   || (c =? 8232) || (c =? 8233) || (c =? 8239) || (c =? 8287)
   || (c =? 12288) || (c =? 65279))%N.

Fixpoint dropWhile (p : N -> bool) (s : jsstring) : jsstring :=
  match s with
  | [] => []
  | c :: rest => if p c then dropWhile p rest else s
  end.

Definition trimStart (s : jsstring) : jsstring := dropWhile isWhiteSpace s.

Definition trimEnd (s : jsstring) : jsstring :=
  rev (dropWhile isWhiteSpace (rev s)).

(** [s.trim()] *)
Definition trim (s : jsstring) : jsstring := trimEnd (trimStart s).

(** *** encodeURIComponent

    Characters left as they are: letters, digits and [- _ . ! ~ * ' ( )]. *)
Definition isUnreserved (c : N) : bool :=
  ((65 <=? c) && (c <=? 90)
   || (97 <=? c) && (c <=? 122)
   || (48 <=? c) && (c <=? 57)
   || (c =? 45) || (c =? 95) || (c =? 46) || (c =? 33) || (c =? 126)
   || (c =? 42) || (c =? 39) || (c =? 40) || (c =? 41))%N.

Definition isHighSurrogate (c : N) : bool := ((55296 <=? c) && (c <=? 56319))%N.
Definition isLowSurrogate (c : N) : bool := ((56320 <=? c) && (c <=? 57343))%N.

(** The code point of a surrogate pair. *)
Definition pairCodePoint (hi lo : N) : N :=
  ((hi - 55296) * 1024 + (lo - 56320) + 65536)%N.

(** The UTF-8 octets of a code point. *)
Definition utf8 (cp : N) : list N :=
  (if cp <? 128 then [cp]
   else if cp <? 2048 then [192 + cp / 64; 128 + cp mod 64]
   else if cp <? 65536 then
     [224 + cp / 4096; 128 + (cp / 64) mod 64; 128 + cp mod 64]
   else
     [240 + cp / 262144; 128 + (cp / 4096) mod 64;
      128 + (cp / 64) mod 64; 128 + cp mod 64])%N.

Definition hexDigit (d : N) : N :=
  (if d <? 10 then 48 + d else 55 + d)%N.

(** One octet as [%XX], upper-case hexadecimal. *)
Definition pctOctet (b : N) : jsstring :=
  [37%N; hexDigit (b / 16); hexDigit (b mod 16)].

Definition pctEncode (cp : N) : jsstring :=
  List.flat_map pctOctet (utf8 cp).

(** [encodeURIComponent s]; [None] when the call throws a URIError, which
    it does on a surrogate that is not part of a pair. *)
Fixpoint encodeURIComponent (s : jsstring) : option jsstring :=
  match s with
  | [] => Some []
  | c :: rest =>
      if isUnreserved c then option_map (cons c) (encodeURIComponent rest)
      else if isLowSurrogate c then None
      else if isHighSurrogate c then
        match rest with
        | d :: rest' =>
            if isLowSurrogate d
            then option_map (app (pctEncode (pairCodePoint c d)))
                            (encodeURIComponent rest')
            else None
        | [] => None
        end
      else option_map (app (pctEncode c)) (encodeURIComponent rest)
  end.

(** *** toLowerCase

    On a string of ASCII code units the mapping is [A-Z] to [a-z], one code
    unit at a time.  Strings with other code units go through the Unicode
    case tables of the engine, which are a parameter of the development. *)
Definition isAscii (c : N) : bool := (c <? 128)%N.

Definition asciiLower (c : N) : N :=
  (if (65 <=? c) && (c <=? 90) then c + 32 else c)%N.

(** What the JavaScript engine supplies and the repository does not fix. *)
Record Engine : Type := {
  unicodeToLowerCase : jsstring -> jsstring;
  uriErrorMessage : jsstring
}.

Definition toLowerCase (E : Engine) (s : jsstring) : jsstring :=
  if forallb isAscii s then List.map asciiLower s else unicodeToLowerCase E s.

(** ** JavaScript numbers and values

    A number is NaN, an infinity, or a finite value, kept as the rational it
    denotes: the comparisons of the source are against integer literals and
    are exact. *)
Inductive number : Type :=
| NaN
| PosInf
| NegInf
| Fin (q : Q).

(** [a <= b] on numbers; any comparison with NaN is false. *)
Definition num_le (a b : number) : bool :=
  match a, b with
  | NaN, _ | _, NaN => false
  | NegInf, _ => true
  | _, PosInf => true
  | Fin x, Fin y => Qle_bool x y
  | _, _ => false
  end.

(** [a < b] *)
Definition num_lt (a b : number) : bool :=
  match a, b with
  | NaN, _ | _, NaN => false
  | PosInf, _ => false
  | _, NegInf => false
  | Fin x, Fin y => negb (Qle_bool y x)
  | _, _ => true
  end.

Definition num_ge (a b : number) : bool := num_le b a.
Definition num_gt (a b : number) : bool := num_lt b a.

Definition int (z : Z) : number := Fin (inject_Z z).

(** The values [response.json()] can produce, and [undefined] for a property
    that is not there.  An object is its list of own properties. *)
Inductive value : Type :=
| VUndefined
| VNull
| VBool (b : bool)
| VNumber (n : number)
| VString (s : jsstring)
| VArray (items : list value)
| VObject (props : list (jsstring * value)).

(** ToBoolean *)
Definition truthy (v : value) : bool :=
  match v with
  | VUndefined | VNull => false
  | VBool b => b
  | VNumber NaN => false
  | VNumber (Fin q) => negb (Qeq_bool q 0)
  | VNumber _ => true
  | VString s => str_truthy s
  | VArray _ | VObject _ => true
  end.

Fixpoint lookup (k : jsstring) (props : list (jsstring * value)) : value :=
  match props with
  | [] => VUndefined
  | (k', v) :: rest => if jsstring_eqb k k' then v else lookup k rest
  end.

(** [v.k] for a truthy [v] and a name [k] that no prototype defines: the own
    property of an object, [undefined] on anything else. *)
Definition getProp (v : value) (k : jsstring) : value :=
  match v with
  | VObject props => lookup k props
  | _ => VUndefined
  end.

(** A thrown [Error]; the handlers read nothing of it but [message]. *)
Record JsError : Type := mkError { message : jsstring }.

(** ** The view state and what a handler does to it *)

Record ViewState : Type := mkState {
  foodItem : jsstring;
  loading : bool;
  nutritionData : value;
  error : jsstring;
  darkMode : bool
}.

(** The state of a freshly mounted component. *)
Definition initialState : ViewState :=
  mkState [] false VNull [] false.

(** The observable steps of a handler, in program order. *)
Inductive Event : Type :=
| SetFoodItem (s : jsstring)
| SetLoading (b : bool)
| SetNutritionData (v : value)
| SetError (msg : jsstring)
| Fetch (url : jsstring)
| ConsoleError (label : jsstring) (err : JsError).

Definition applyEvent (st : ViewState) (ev : Event) : ViewState :=
  match ev with
  | SetFoodItem s =>
      mkState s (loading st) (nutritionData st) (error st) (darkMode st)
  | SetLoading b =>
      mkState (foodItem st) b (nutritionData st) (error st) (darkMode st)
  | SetNutritionData v =>
      mkState (foodItem st) (loading st) v (error st) (darkMode st)
  | SetError msg =>
      mkState (foodItem st) (loading st) (nutritionData st) msg (darkMode st)
  | Fetch _ | ConsoleError _ _ => st
  end.

Definition applyTrace (st : ViewState) (t : list Event) : ViewState :=
  fold_left applyEvent t st.

(** The backend as seen by one call: the promise of [fetch] rejects or
    resolves to a response, whose [json()] rejects or resolves to a value. *)
Record Response : Type := mkResponse {
  ok : bool;
  json : JsError + value
}.

Definition Network := jsstring -> JsError + Response.

(** ** Handlers as traces with exceptions *)

Definition Eff (A : Type) : Type := (list Event * (JsError + A))%type.

Definition ret {A} (a : A) : Eff A := ([], inr a).

Definition bind {A B} (m : Eff A) (f : A -> Eff B) : Eff B :=
  match m with
  | (t, inl e) => (t, inl e)
  | (t, inr a) => let (t', r) := f a in (t ++ t', r)
  end.

Definition emit (ev : Event) : Eff unit := ([ev], inr tt).

Definition throw {A} (e : JsError) : Eff A := ([], inl e).

Definition liftResult {A} (r : JsError + A) : Eff A := ([], r).

(** [try { body } catch (err) { handler err } finally { fin }] *)
Definition tryCatchFinally {A} (body : Eff A) (handler : JsError -> Eff A)
    (fin : Eff unit) : Eff A :=
  let caught :=
    match body with
    | (t, inl e) => let (t', r) := handler e in (t ++ t', r)
    | (t, inr a) => (t, inr a)
    end in
  let (t, r) := caught in
  match fin with
  | (t', inl e') => (t ++ t', inl e')
  | (t', inr _) => (t ++ t', r)
  end.

Declare Scope eff_scope.
Delimit Scope eff_scope with eff.
Notation "x <- m ;; k" := (bind m (fun x => k))
  (at level 61, m at next level, right associativity) : eff_scope.
Notation "m ;; k" := (bind m (fun _ => k))
  (at level 61, right associativity) : eff_scope.
Open Scope eff_scope.

Definition fetch (net : Network) (url : jsstring) : Eff Response :=
  emit (Fetch url) ;; liftResult (net url).

Definition encodeOrThrow (E : Engine) (s : jsstring) : Eff jsstring :=
  match encodeURIComponent s with
  | Some e => ret e
  | None => throw (mkError (uriErrorMessage E))
  end.

Definition catchBlock (err : JsError) : Eff unit :=
  emit (ConsoleError (lit "Analysis error:") err) ;;
  emit (SetError
          (str_or (message err) (lit "Failed to analyze food. Please try again."))).

(** [!data || !data.detailed_breakdown] *)
Definition badShape (data : value) : bool :=
  negb (truthy data) || negb (truthy (getProp data (lit "detailed_breakdown"))).

(** [analyzeFood], run in a render whose state is [st]. *)
Definition analyzeFood (E : Engine) (net : Network) (st : ViewState) : Eff unit :=
  if negb (str_truthy (trim (foodItem st))) then
    emit (SetError (lit "Please enter a food item"))
  else
    emit (SetLoading true) ;;
    emit (SetError []) ;;
    tryCatchFinally
      (target <- encodeOrThrow E (trim (foodItem st)) ;;
       response <- fetch net (lit "/api/analyze/" ++ target) ;;
       if negb (ok response) then
         throw (mkError (lit "Failed to analyze " ++ foodItem st
                           ++ lit ". Please try again."))
       else
         data <- liftResult (json response) ;;
         if badShape data then
           throw (mkError (lit "Invalid response from server"))
         else
           emit (SetNutritionData data))
      catchBlock
      (emit (SetLoading false)).

Definition quickSuggestions : list jsstring :=
  [lit "Banana"; lit "Avocado"; lit "Quinoa"; lit "Salmon";
   lit "Spinach"; lit "Blueberries"; lit "Almonds"; lit "Sweet Potato"].

(** [handleQuickAnalysis food] *)
Definition handleQuickAnalysis (E : Engine) (net : Network) (food : jsstring)
    : Eff unit :=
  emit (SetError []) ;;
  emit (SetFoodItem (toLowerCase E food)) ;;
  emit (SetLoading true) ;;
  tryCatchFinally
    (target <- encodeOrThrow E (trim food) ;;
     response <- fetch net (lit "http://localhost:8000/api/analyze/" ++ target) ;;
     if negb (ok response) then
       throw (mkError (lit "Failed to analyze " ++ food
                         ++ lit ". Please try again."))
     else
       data <- liftResult (json response) ;;
       if badShape data then
         throw (mkError (lit "Invalid response from server"))
       else
         emit (SetNutritionData data))
    catchBlock
    (emit (SetLoading false)).

(** The trace of a handler and the state it leaves. *)
Definition trace {A} (m : Eff A) : list Event := fst m.

Definition finalState {A} (st : ViewState) (m : Eff A) : ViewState :=
  applyTrace st (trace m).

(** ** Display helpers *)

Definition getScoreColor (score : number) : jsstring :=
  if num_ge score (int 80) then lit "text-green-500"
  else if num_ge score (int 60) then lit "text-yellow-500"
  else if num_ge score (int 40) then lit "text-orange-500"
  else lit "text-red-500".

Definition getScoreDescription (score : number) : jsstring :=
  if num_ge score (int 80) then lit "Excellent Choice"
  else if num_ge score (int 60) then lit "Good Option"
  else if num_ge score (int 40) then lit "Fair Choice"
  else lit "Consider Alternatives".

(** The class of the progress bar, written inline in the markup. *)
Definition scoreBarClass (score : number) : jsstring :=
  if num_ge score (int 80) then lit "bg-green-500"
  else if num_ge score (int 60) then lit "bg-yellow-500"
  else if num_ge score (int 40) then lit "bg-orange-500"
  else lit "bg-red-500".

(** The status label of a nutrient row, written inline in the markup:
    [nutrient.value > 10 ? 'High' : nutrient.value > 5 ? 'Good' : 'Low']. *)
Definition nutrientStatus (amount : number) : jsstring :=
  if num_gt amount (int 10) then lit "High"
  else if num_gt amount (int 5) then lit "Good"
  else lit "Low".

(** The badge class of the same row. *)
Definition nutrientBadgeClass (amount : number) : jsstring :=
  if num_gt amount (int 10) then lit "bg-green-100 text-green-800"
  else if num_gt amount (int 5) then lit "bg-yellow-100 text-yellow-800"
  else lit "bg-blue-100 text-blue-800".

(** ** Observations on a trace *)

(** The requests a trace dispatches, in order. *)
Definition fetched (t : list Event) : list jsstring :=
  flat_map (fun ev => match ev with Fetch u => [u] | _ => [] end) t.

(** [hay.startsWith(needle)] and [hay.includes(needle)] *)
Fixpoint startsWith (needle hay : jsstring) : bool :=
  match needle, hay with
  | [], _ => true
  | _ :: _, [] => false
  | a :: needle', b :: hay' => N.eqb a b && startsWith needle' hay'
  end.

Fixpoint includes (needle hay : jsstring) : bool :=
  startsWith needle hay
  || match hay with
     | [] => false
     | _ :: hay' => includes needle hay'
     end.

(** ** The life cycle of a submission *)

(** The life cycle of one submission, as a monitor over its events:
    idle, busy, request in flight, then success or a caught failure, and
    settled once the busy flag is cleared.  Before the busy flag is raised a
    handler may only clear the error slot and echo the selection; a request
    can only leave while busy; results and caught errors can only follow. *)
Inductive Stage : Type :=
| Idle
| Busy
| InFlight
| Succeeded
| Caught
| Failed
| Settled.

Definition stageStep (s : Stage) (ev : Event) : option Stage :=
  match s, ev with
  | Idle, SetError [] => Some Idle
  | Idle, SetFoodItem _ => Some Idle
  | Idle, SetLoading true => Some Busy
  | Busy, SetError [] => Some Busy
  | Busy, Fetch _ => Some InFlight
  | Busy, ConsoleError _ _ => Some Caught
  | InFlight, SetNutritionData _ => Some Succeeded
  | InFlight, ConsoleError _ _ => Some Caught
  | Caught, SetError (_ :: _) => Some Failed
  | Succeeded, SetLoading false => Some Settled
  | Failed, SetLoading false => Some Settled
  | _, _ => None
  end.

Fixpoint runStages (s : Stage) (t : list Event) : option Stage :=
  match t with
  | [] => Some s
  | ev :: rest =>
      match stageStep s ev with
      | Some s' => runStages s' rest
      | None => None
      end
  end.

(** ** The two ways to start an analysis

    The search button and the Enter key call [analyzeFood]; each suggestion
    button calls [handleQuickAnalysis] with its food. *)

Definition submitOrigin : jsstring := lit "/api/analyze/".
Definition quickOrigin : jsstring := lit "http://localhost:8000/api/analyze/".

Inductive Action : Type :=
| Search
| QuickPick (food : jsstring).

Definition handle (E : Engine) (net : Network) (st : ViewState) (a : Action)
    : Eff unit :=
  match a with
  | Search => analyzeFood E net st
  | QuickPick food => handleQuickAnalysis E net food
  end.

(** The text an action analyses, before trimming. *)
Definition queryOf (st : ViewState) (a : Action) : jsstring :=
  match a with
  | Search => foodItem st
  | QuickPick food => food
  end.

(** The address an action puts before the escaped query. *)
Definition originOf (a : Action) : jsstring :=
  match a with
  | Search => submitOrigin
  | QuickPick _ => quickOrigin
  end.

(** Only [analyzeFood] has a guard in front of the request. *)
Definition validates (st : ViewState) (a : Action) : bool :=
  match a with
  | Search => str_truthy (trim (foodItem st))
  | QuickPick _ => true
  end.

(** What a handler does before the request phase. *)
Definition preamble (E : Engine) (a : Action) : list Event :=
  match a with
  | Search => [SetLoading true; SetError []]
  | QuickPick food =>
      [SetError []; SetFoodItem (toLowerCase E food); SetLoading true]
  end.

(** ** Reading the reply *)

(** A reply that is a request failure: the promise of [fetch] rejected, or
    the response has [ok] false. *)
Definition requestFailed (reply : JsError + Response) : bool :=
  match reply with
  | inl _ => true
  | inr resp => negb (ok resp)
  end.

(** A parsed body that is absent, or has no [detailed_breakdown]. *)
Definition lacksBreakdown (data : value) : Prop :=
  data = VNull \/ data = VUndefined
  \/ getProp data (lit "detailed_breakdown") = VUndefined.

(** The ways a submission can end without a result, read off the inputs:
    the guard, the escaping, the transport, the status, the body and its
    shape. *)
Inductive FailurePath (net : Network) (st : ViewState) (a : Action) : Prop :=
| ValidationFails :
    validates st a = false -> FailurePath net st a
| EscapeFails :
    validates st a = true ->
    encodeURIComponent (trim (queryOf st a)) = None ->
    FailurePath net st a
| TransportFails (target : jsstring) (err : JsError) :
    validates st a = true ->
    encodeURIComponent (trim (queryOf st a)) = Some target ->
    net (originOf a ++ target) = inl err ->
    FailurePath net st a
| StatusFails (target : jsstring) (resp : Response) :
    validates st a = true ->
    encodeURIComponent (trim (queryOf st a)) = Some target ->
    net (originOf a ++ target) = inr resp ->
    ok resp = false ->
    FailurePath net st a
| BodyFails (target : jsstring) (resp : Response) (err : JsError) :
    validates st a = true ->
    encodeURIComponent (trim (queryOf st a)) = Some target ->
    net (originOf a ++ target) = inr resp ->
    ok resp = true ->
    json resp = inl err ->
    FailurePath net st a
| ShapeFails (target : jsstring) (resp : Response) (data : value) :
    validates st a = true ->
    encodeURIComponent (trim (queryOf st a)) = Some target ->
    net (originOf a ++ target) = inr resp ->
    ok resp = true ->
    json resp = inr data ->
    badShape data = true ->
    FailurePath net st a.

(** ** The handlers in normal form

    Both handlers run the same request phase between raising and clearing
    the busy flag.  The definitions below spell out its events; the two
    lemmas after them show that each handler is exactly its preamble, the
    request phase and the final [SetLoading false]. *)

Definition failedToAnalyze (named : jsstring) : JsError :=
  mkError (lit "Failed to analyze " ++ named ++ lit ". Please try again.").

Definition invalidResponse : JsError :=
  mkError (lit "Invalid response from server").

Definition genericFailure : jsstring :=
  lit "Failed to analyze food. Please try again.".

Definition caughtEvents (err : JsError) : list Event :=
  [ConsoleError (lit "Analysis error:") err;
   SetError (str_or (message err) genericFailure)].

Definition replyEvents (named : jsstring) (reply : JsError + Response)
    : list Event :=
  match reply with
  | inl err => caughtEvents err
  | inr resp =>
      if ok resp then
        match json resp with
        | inl err => caughtEvents err
        | inr data =>
            if badShape data then caughtEvents invalidResponse
            else [SetNutritionData data]
        end
      else caughtEvents (failedToAnalyze named)
  end.

Definition requestEvents (E : Engine) (net : Network)
    (origin query named : jsstring) : list Event :=
  match encodeURIComponent query with
  | None => caughtEvents (mkError (uriErrorMessage E))
  | Some target =>
      Fetch (origin ++ target) :: replyEvents named (net (origin ++ target))
  end.

(** ** Strings of code units and their escapes *)

(** A code unit is a 16-bit number. *)
Definition isCodeUnit (c : N) : bool := (c <? 65536)%N.

(** The characters an escaped component is made of. *)
Definition isUriChar (c : N) : bool := isUnreserved c || (c =? 37)%N.

(** [a] followed by [b], when neither call throws. *)
Definition joinEncoded (a b : option jsstring) : option jsstring :=
  match a, b with
  | Some x, Some y => Some (x ++ y)
  | _, _ => None
  end.

Definition startsLow (t : jsstring) : bool :=
  match t with
  | [] => false
  | d :: _ => isLowSurrogate d
  end.

(** ** Sample inputs *)

(** An engine to evaluate the handlers on ASCII input, where the Unicode
    case tables are not consulted. *)
Definition asciiEngine : Engine :=
  {| unicodeToLowerCase := fun s => s;
     uriErrorMessage := lit "URI malformed" |}.

Definition blankState : ViewState :=
  mkState [32; 9; 160; 10]%N false VNull [] false.

Definition unreachable : Network := fun _ => inl (mkError (lit "Failed to fetch")).

Definition bananaState : ViewState :=
  mkState (lit "  Banana ") false VNull [] false.

Definition bananaResult : value :=
  VObject
    [(lit "food", VString (lit "banana"));
     (lit "detailed_breakdown",
      VObject
        [(lit "calories", VNumber (int 89));
         (lit "protein", VNumber (Fin (11 # 10)));
         (lit "carbs", VNumber (int 23));
         (lit "fiber", VNumber (Fin (26 # 10)));
         (lit "fat", VNumber (Fin (3 # 10)));
         (lit "sugar", VNumber (int 12))]);
     (lit "health_score", VNumber (int 75));
     (lit "health_benefits", VArray [VString (lit "Rich in potassium")]);
     (lit "meal_suggestions", VArray [VString (lit "Banana smoothie bowl")])].

(** A state that already shows a result. *)
Definition shownState : ViewState :=
  mkState (lit "pizza") false bananaResult [] false.

(** A success status with a body that has no breakdown. *)
Definition shapelessResponse : Response :=
  mkResponse true (inr (VObject [(lit "food", VString (lit "pizza"))])).

Definition shapeless : Network := fun _ => inr shapelessResponse.

(** A non-success status whose body explains itself. *)
Definition serverDetail : jsstring := lit "Food item not recognised".

Definition refusingResponse : Response :=
  mkResponse false
    (inr (VObject [(lit "detail", VString serverDetail);
                   (lit "message", VString serverDetail);
                   (lit "error", VString serverDetail)])).

Definition refusing : Network := fun _ => inr refusingResponse.

Definition serving (data : value) : Network :=
  fun _ => inr (mkResponse true (inr data)).

(** ** Well-paired surrogates *)

(** [s.isWellFormed()]: every surrogate of [s] is half of a pair. *)
Fixpoint wellPaired (s : jsstring) : bool :=
  match s with
  | [] => true
  | c :: rest =>
      if isLowSurrogate c then false
      else if isHighSurrogate c then
        match rest with
        | d :: rest' => isLowSurrogate d && wellPaired rest'
        | [] => false
        end
      else wellPaired rest
  end.

(** ** The controls of the page *)

(** The theme button: [setDarkMode(!darkMode)]. *)
Definition toggleDarkMode (st : ViewState) : ViewState :=
  mkState (foodItem st) (loading st) (nutritionData st) (error st)
          (negb (darkMode st)).



(** The panels of the page: [{error && ...}], [{nutritionData && ...}] and
    [{!nutritionData && ...}]. *)
Definition showsError (st : ViewState) : bool := str_truthy (error st).
Definition showsResult (st : ViewState) : bool := truthy (nutritionData st).




(** ** What the result panel reads *)

(** An object with a truthy [detailed_breakdown]. *)
Definition isWellShaped (data : value) : bool :=
  match data with
  | VObject props => truthy (lookup (lit "detailed_breakdown") props)
  | _ => false
  end.

(** [s.charAt(0)] and [s.slice(1)] *)
Definition charAt0 (s : jsstring) : jsstring :=
  match s with
  | [] => []
  | c :: _ => [c]
  end.

Definition slice1 (s : jsstring) : jsstring :=
  match s with
  | [] => []
  | _ :: rest => rest
  end.

Definition asciiUpper (c : N) : N :=
  (if (97 <=? c) && (c <=? 122) then c - 32 else c)%N.

(** [s.toUpperCase()]; as for [toLowerCase], strings with code units outside
    ASCII go through the case tables of the engine, here [upper]. *)
Definition toUpperCase (upper : jsstring -> jsstring) (s : jsstring) : jsstring :=
  if forallb isAscii s then List.map asciiUpper s else upper s.

(** The name in the heading of the result panel,
    [nutritionData.food.charAt(0).toUpperCase() + nutritionData.food.slice(1)];
    [None] when the expression throws a TypeError, which it does when [food]
    is not a string. *)
Definition headingName (upper : jsstring -> jsstring) (data : value)
    : option jsstring :=
  match getProp data (lit "food") with
  | VString s => Some (toUpperCase upper (charAt0 s) ++ slice1 s)
  | _ => None
  end.

(** ToNumber on the values of a parsed body.  The numeric value of a string,
    and of an array or object (through its string form), is left to the
    engine. *)
Record Coercions : Type := {
  stringToNumber : jsstring -> number;
  objectToNumber : value -> number
}.

Definition toNumber (C : Coercions) (v : value) : number :=
  match v with
  | VUndefined => NaN
  | VNull => int 0
  | VBool true => int 1
  | VBool false => int 0
  | VNumber n => n
  | VString s => stringToNumber C s
  | VArray _ | VObject _ => objectToNumber C v
  end.

(** The rows of the nutrient table: name, property and unit. *)
Definition nutrientRows : list (jsstring * jsstring * jsstring) :=
  [(lit "Calories", lit "calories", lit "kcal");
   (lit "Protein", lit "protein", lit "g");
   (lit "Carbohydrates", lit "carbs", lit "g");
   (lit "Fiber", lit "fiber", lit "g");
   (lit "Fat", lit "fat", lit "g");
   (lit "Sugar", lit "sugar", lit "g")].

(** The status label of the row that reads
    [nutritionData.detailed_breakdown.<key>]; [None] when the read throws a
    TypeError, which it does when [detailed_breakdown] is null or
    undefined. *)
Definition rowStatus (C : Coercions) (data : value) (key : jsstring)
    : option jsstring :=
  match getProp data (lit "detailed_breakdown") with
  | VUndefined | VNull => None
  | breakdown => Some (nutrientStatus (toNumber C (getProp breakdown key)))
  end.

(** The labels of the six rows, in order. *)
Definition tableStatuses (C : Coercions) (data : value)
    : list (option jsstring) :=
  List.map (fun row => rowStatus C data (snd (fst row))) nutrientRows.

(** Coercions to evaluate examples that convert no string and no object. *)
Definition plainCoercions : Coercions :=
  {| stringToNumber := fun _ => NaN; objectToNumber := fun _ => NaN |}.

(** A body that passes the shape check and has nothing else. *)
Definition bareResult : value :=
  VObject [(lit "detailed_breakdown", VObject [])].

(** A body whose parsing fails. *)
Definition garbledResponse : Response :=
  mkResponse true (inl (mkError (lit "Unexpected token < in JSON at position 0"))).

Definition garbling : Network := fun _ => inr garbledResponse.

(** A query full of address delimiters. *)
Definition slashState : ViewState :=
  mkState (lit "fish & chips/../admin?x=1#top") false VNull [] false.


(** ** The score of a stored result *)

(** What the score helpers compare: [nutritionData.health_score], turned
    into a number by [>=]. *)
Definition scoreOf (C : Coercions) (data : value) : number :=
  toNumber C (getProp data (lit "health_score")).

(** The place of a label in the order of the tiers, best last. *)
Definition labelRank (label : jsstring) : nat :=
  if jsstring_eqb label (lit "Excellent Choice") then 3
  else if jsstring_eqb label (lit "Good Option") then 2
  else if jsstring_eqb label (lit "Fair Choice") then 1
  else 0.

(** The place of a status label, highest last. *)
Definition statusRank (label : jsstring) : nat :=
  if jsstring_eqb label (lit "High") then 2
  else if jsstring_eqb label (lit "Good") then 1
  else 0.

(** ** Facts about the runtime functions *)

Example trim_ex : trim (lit "  Sweet Potato ") = lit "Sweet Potato".
Proof. reflexivity. Qed.

Example encode_ex :
  encodeURIComponent (lit "Sweet Potato") = Some (lit "Sweet%20Potato").
Proof. reflexivity. Qed.

(* U+00E9 and the pair D83C DF4E (U+1F34E) *)
Example encode_utf8_ex :
  encodeURIComponent [233; 55356; 57166]%N = Some (lit "%C3%A9%F0%9F%8D%8E").
Proof. reflexivity. Qed.

Example encode_lone_ex : encodeURIComponent [97; 55296; 98]%N = None.
Proof. reflexivity. Qed.

Arguments lit : simpl never.

Lemma dropWhile_all (p : N -> bool) (s : jsstring) :
  forallb p s = true -> dropWhile p s = [].
Proof.
  induction s as [|c rest IH]; simpl; [reflexivity|].
  intros H. apply andb_true_iff in H as [Hc Hrest].
  rewrite Hc. auto.
Qed.

Lemma dropWhile_nil_all (p : N -> bool) (s : jsstring) :
  dropWhile p s = [] -> forallb p s = true.
Proof.
  induction s as [|c rest IH]; simpl; [reflexivity|].
  destruct (p c); [auto | discriminate].
Qed.

Lemma dropWhile_suffix (p : N -> bool) (s : jsstring) :
  exists dropped, s = dropped ++ dropWhile p s /\ forallb p dropped = true.
Proof.
  induction s as [|c rest [d [Hd Hp]]]; simpl.
  - exists []. split; reflexivity.
  - destruct (p c) eqn:Hc.
    + exists (c :: d). simpl. rewrite Hc, Hp. split; [congruence|reflexivity].
    + exists []. split; reflexivity.
Qed.

Lemma forallb_rev (p : N -> bool) (s : jsstring) :
  forallb p (rev s) = forallb p s.
Proof.
  induction s as [|c rest IH]; simpl; [reflexivity|].
  rewrite forallb_app, IH. simpl. rewrite andb_true_r. apply andb_comm.
Qed.

(** [trim] leaves nothing exactly when the string is all white space. *)
Lemma trim_nil_iff (s : jsstring) :
  trim s = [] <-> forallb isWhiteSpace s = true.
Proof.
  unfold trim, trimEnd, trimStart. split.
  - intros H.
    assert (Hd : dropWhile isWhiteSpace (rev (dropWhile isWhiteSpace s)) = []).
    { apply (f_equal (@rev N)) in H. rewrite rev_involutive in H. exact H. }
    apply dropWhile_nil_all in Hd. rewrite forallb_rev in Hd.
    destruct (dropWhile_suffix isWhiteSpace s) as [d [Hs Hp]].
    rewrite Hs, forallb_app, Hp, Hd. reflexivity.
  - intros H. rewrite (dropWhile_all _ _ H). reflexivity.
Qed.

Lemma str_truthy_false (s : jsstring) : str_truthy s = false <-> s = [].
Proof. destruct s; simpl; split; congruence. Qed.

Lemma str_or_truthy (a b : jsstring) :
  str_truthy b = true -> str_truthy (str_or a b) = true.
Proof. unfold str_or. destruct (str_truthy a) eqn:Ha; auto. Qed.

Lemma applyTrace_app (st : ViewState) (t u : list Event) :
  applyTrace st (t ++ u) = applyTrace (applyTrace st t) u.
Proof. apply fold_left_app. Qed.

Opaque lit.

Lemma analyzeFood_trace (E : Engine) (net : Network) (st : ViewState) :
  analyzeFood E net st =
  (if str_truthy (trim (foodItem st))
   then [SetLoading true; SetError []]
        ++ requestEvents E net submitOrigin (trim (foodItem st)) (foodItem st)
        ++ [SetLoading false]
   else [SetError (lit "Please enter a food item")],
   inr tt).
Proof.
  unfold analyzeFood, requestEvents, replyEvents, encodeOrThrow, fetch,
    submitOrigin.
  destruct (str_truthy (trim (foodItem st))); [|reflexivity].
  destruct (encodeURIComponent (trim (foodItem st))) as [target|];
    [|reflexivity].
  cbn.
  destruct (net (lit "/api/analyze/" ++ target)) as [err|resp]; [reflexivity|].
  cbn. destruct (ok resp); [|reflexivity].
  cbn. destruct (json resp) as [err|data]; [reflexivity|].
  cbn. destruct (badShape data); reflexivity.
Qed.

Lemma handleQuickAnalysis_trace (E : Engine) (net : Network) (food : jsstring) :
  handleQuickAnalysis E net food =
  ([SetError []; SetFoodItem (toLowerCase E food); SetLoading true]
   ++ requestEvents E net quickOrigin (trim food) food
   ++ [SetLoading false],
   inr tt).
Proof.
  unfold handleQuickAnalysis, requestEvents, replyEvents, encodeOrThrow, fetch,
    quickOrigin.
  destruct (encodeURIComponent (trim food)) as [target|]; [|reflexivity].
  cbn.
  destruct (net (lit "http://localhost:8000/api/analyze/" ++ target))
    as [err|resp]; [reflexivity|].
  cbn. destruct (ok resp); [|reflexivity].
  cbn. destruct (json resp) as [err|data]; [reflexivity|].
  cbn. destruct (badShape data); reflexivity.
Qed.

(** ** The request phase *)

Lemma caught_message_truthy (err : JsError) :
  str_truthy (str_or (message err) genericFailure) = true.
Proof. apply str_or_truthy. reflexivity. Qed.

Lemma caught_message_cons (err : JsError) :
  exists c rest, str_or (message err) genericFailure = c :: rest.
Proof.
  pose proof (caught_message_truthy err) as H.
  destruct (str_or (message err) genericFailure) as [|c rest];
    [discriminate | eauto].
Qed.

(** Whatever the backend does, the request phase has one of three shapes. *)
Lemma requestEvents_shape (E : Engine) (net : Network)
    (origin query named : jsstring) :
  (exists err, encodeURIComponent query = None
     /\ requestEvents E net origin query named = caughtEvents err)
  \/ (exists target err, encodeURIComponent query = Some target
     /\ requestEvents E net origin query named
        = Fetch (origin ++ target) :: caughtEvents err)
  \/ (exists target data, encodeURIComponent query = Some target
     /\ requestEvents E net origin query named
        = [Fetch (origin ++ target); SetNutritionData data]).
Proof.
  unfold requestEvents, replyEvents.
  destruct (encodeURIComponent query) as [target|]; [|left; eauto].
  right.
  destruct (net (origin ++ target)) as [err|resp]; [left; eauto|].
  destruct (ok resp); [|left; eauto].
  destruct (json resp) as [err|data]; [left; eauto|].
  destruct (badShape data); [left; eauto | right; eauto].
Qed.

Lemma requestEvents_stages (E : Engine) (net : Network)
    (origin query named : jsstring) :
  runStages Busy (requestEvents E net origin query named ++ [SetLoading false])
  = Some Settled.
Proof.
  destruct (requestEvents_shape E net origin query named)
    as [[err [_ ->]] | [[target [err [_ ->]]] | [target [data [_ ->]]]]];
    unfold caughtEvents; cbn;
    try (destruct (caught_message_cons err) as [c [rest ->]]); reflexivity.
Qed.

Lemma last_snoc (t : list Event) (ev d : Event) : last (t ++ [ev]) d = ev.
Proof. apply last_last. Qed.

Lemma loading_cleared (st : ViewState) (t : list Event) :
  loading (applyTrace st (t ++ [SetLoading false])) = false.
Proof. rewrite applyTrace_app. reflexivity. Qed.

Lemma fetched_app (t u : list Event) : fetched (t ++ u) = fetched t ++ fetched u.
Proof. apply flat_map_app. Qed.

Lemma fetched_caught (err : JsError) : fetched (caughtEvents err) = [].
Proof. reflexivity. Qed.

Lemma requestEvents_fetched (E : Engine) (net : Network)
    (origin query named : jsstring) :
  fetched (requestEvents E net origin query named)
  = match encodeURIComponent query with
    | Some target => [origin ++ target]
    | None => []
    end.
Proof.
  destruct (requestEvents_shape E net origin query named)
    as [[err [-> ->]] | [[target [err [-> ->]]] | [target [data [-> ->]]]]];
    reflexivity.
Qed.

(** ** Validation of the typed query (C1) *)

(** C1. When the text in the input field is only white space (the empty
    string included), [analyzeFood] does one thing: it stores the message
    'Please enter a food item'.  It dispatches no request and never touches
    the busy flag, so the final state differs from the initial one in the
    error slot alone. *)
Theorem analyzeFood_rejects_blank (E : Engine) (net : Network) (st : ViewState) :
  forallb isWhiteSpace (foodItem st) = true ->
  analyzeFood E net st = ([SetError (lit "Please enter a food item")], inr tt)
  /\ fetched (trace (analyzeFood E net st)) = []
  /\ (forall b, ~ In (SetLoading b) (trace (analyzeFood E net st)))
  /\ finalState st (analyzeFood E net st)
     = mkState (foodItem st) (loading st) (nutritionData st)
               (lit "Please enter a food item") (darkMode st).
Proof.
  intros Hblank. apply trim_nil_iff in Hblank.
  rewrite analyzeFood_trace, Hblank. cbn.
  repeat split.
  intros b [H|[]]. discriminate.
Qed.

Lemma analyzeFood_rejects_blank_witness :
  analyzeFood asciiEngine unreachable blankState
  = ([SetError (lit "Please enter a food item")], inr tt)
  /\ fetched (trace (analyzeFood asciiEngine unreachable blankState)) = []
  /\ (forall b,
        ~ In (SetLoading b) (trace (analyzeFood asciiEngine unreachable blankState)))
  /\ finalState blankState (analyzeFood asciiEngine unreachable blankState)
     = mkState [32; 9; 160; 10]%N false VNull (lit "Please enter a food item")
               false.
Proof.
  apply (analyzeFood_rejects_blank asciiEngine unreachable blankState).
  reflexivity.
Defined.

(** ** Ordering within one submission (C3) *)

(** C3. A submission that passes validation walks the life cycle
    idle, busy, in flight, success or failure, settled: the request leaves
    only after the busy flag is raised, results and caught errors only
    follow the request (or a failure to build it), the last event is
    [SetLoading false] and the final state is not busy, whatever the backend
    does.  A typed query that fails validation stores its message and does
    nothing else, so no request leaves before validation has passed.
    [handleQuickAnalysis] has no validation step and always runs the cycle. *)
Theorem submission_ordering (E : Engine) (net : Network) (st : ViewState)
    (food : jsstring) :
  (if str_truthy (trim (foodItem st))
   then runStages Idle (trace (analyzeFood E net st)) = Some Settled
        /\ last (trace (analyzeFood E net st)) (SetLoading true)
           = SetLoading false
        /\ loading (finalState st (analyzeFood E net st)) = false
   else trace (analyzeFood E net st) = [SetError (lit "Please enter a food item")]
        /\ fetched (trace (analyzeFood E net st)) = []
        /\ loading (finalState st (analyzeFood E net st)) = loading st)
  /\ runStages Idle (trace (handleQuickAnalysis E net food)) = Some Settled
  /\ last (trace (handleQuickAnalysis E net food)) (SetLoading true)
     = SetLoading false
  /\ loading (finalState st (handleQuickAnalysis E net food)) = false.
Proof.
  unfold finalState.
  rewrite analyzeFood_trace, handleQuickAnalysis_trace. unfold trace, fst.
  split.
  - destruct (str_truthy (trim (foodItem st))).
    + split; [|split].
      * cbn. apply requestEvents_stages.
      * rewrite app_assoc. apply last_snoc.
      * rewrite app_assoc. apply loading_cleared.
    + repeat split.
  - split; [|split].
    + cbn. apply requestEvents_stages.
    + rewrite app_assoc. apply last_snoc.
    + rewrite app_assoc. apply loading_cleared.
Qed.

(** ** Escaping and trimming *)

Ltac charset :=
  unfold isWhiteSpace, isUnreserved, isLowSurrogate, isHighSurrogate in *;
  repeat match goal with
         | H : _ = true |- _ =>
             progress rewrite ?orb_true_iff, ?andb_true_iff, ?N.leb_le,
               ?N.eqb_eq in H
         end;
  rewrite ?orb_true_iff, ?andb_true_iff, ?N.leb_le, ?N.eqb_eq.

Lemma whitespace_escaped (c : N) :
  isWhiteSpace c = true ->
  isUnreserved c = false /\ isLowSurrogate c = false
  /\ isHighSurrogate c = false.
Proof.
  intros H. repeat split; apply not_true_is_false; intros H'; charset; lia.
Qed.

Lemma pctEncode_length (cp : N) : (3 <= length (pctEncode cp))%nat.
Proof.
  unfold pctEncode, utf8.
  destruct (cp <? 128)%N; [cbn; lia|].
  destruct (cp <? 2048)%N; [cbn; lia|].
  destruct (cp <? 65536)%N; cbn; lia.
Qed.

Lemma joinEncoded_cons (c : N) (a b : option jsstring) :
  option_map (cons c) (joinEncoded a b) = joinEncoded (option_map (cons c) a) b.
Proof. destruct a, b; reflexivity. Qed.

Lemma joinEncoded_app (p : jsstring) (a b : option jsstring) :
  option_map (app p) (joinEncoded a b) = joinEncoded (option_map (app p) a) b.
Proof. destruct a, b; cbn; try reflexivity. rewrite app_assoc. reflexivity. Qed.

(** Escaping distributes over a split that does not cut a surrogate pair. *)
Lemma encode_app_pair (s : jsstring) :
  (forall t, startsLow t = false ->
     encodeURIComponent (s ++ t)
     = joinEncoded (encodeURIComponent s) (encodeURIComponent t))
  /\ (forall c t, startsLow t = false ->
     encodeURIComponent ((c :: s) ++ t)
     = joinEncoded (encodeURIComponent (c :: s)) (encodeURIComponent t)).
Proof.
  induction s as [|d rest [IH1 IH2]].
  - split.
    + intros t _. cbn. destruct (encodeURIComponent t); reflexivity.
    + intros c t Ht. cbn.
      destruct (isUnreserved c).
      { destruct (encodeURIComponent t); reflexivity. }
      destruct (isLowSurrogate c); [reflexivity|].
      destruct (isHighSurrogate c).
      { destruct t as [|d t']; [reflexivity|]. cbn in Ht. rewrite Ht.
        reflexivity. }
      destruct (encodeURIComponent t); cbn; [|reflexivity].
      rewrite app_nil_r. reflexivity.
  - split; [apply IH2|].
    intros c t Ht.
    change ((c :: d :: rest) ++ t) with (c :: (d :: rest) ++ t).
    cbn [encodeURIComponent].
    destruct (isUnreserved c).
    { change (d :: rest ++ t) with ((d :: rest) ++ t).
      rewrite (IH2 d t Ht). apply joinEncoded_cons. }
    destruct (isLowSurrogate c); [reflexivity|].
    destruct (isHighSurrogate c).
    { cbn [app]. destruct (isLowSurrogate d); [|reflexivity].
      rewrite (IH1 t Ht). apply joinEncoded_app. }
    change (d :: rest ++ t) with ((d :: rest) ++ t).
    rewrite (IH2 d t Ht). apply joinEncoded_app.
Qed.

Lemma encode_app (s t : jsstring) :
  startsLow t = false ->
  encodeURIComponent (s ++ t)
  = joinEncoded (encodeURIComponent s) (encodeURIComponent t).
Proof. apply encode_app_pair. Qed.

(** Escaped white space is never shorter than the white space. *)
Lemma encode_whitespace (w : jsstring) :
  forallb isWhiteSpace w = true ->
  exists e, encodeURIComponent w = Some e /\ (length w <= length e)%nat.
Proof.
  induction w as [|c rest IH]; cbn [forallb].
  - intros _. exists []. split; [reflexivity | cbn; lia].
  - intros H. apply andb_true_iff in H as [Hc Hrest].
    destruct (IH Hrest) as [e [He Hlen]].
    destruct (whitespace_escaped c Hc) as [Hu [Hl Hh]].
    cbn [encodeURIComponent]. rewrite Hu, Hl, Hh, He. cbn [option_map].
    eexists. split; [reflexivity|].
    rewrite length_app. pose proof (pctEncode_length c). cbn [length]. lia.
Qed.

Lemma whitespace_not_startsLow (w : jsstring) :
  forallb isWhiteSpace w = true -> startsLow w = false.
Proof.
  destruct w as [|c rest]; [reflexivity|]. cbn. intros H.
  apply andb_true_iff in H as [Hc _]. apply (whitespace_escaped c Hc).
Qed.

(** A string is its trimmed core between two runs of white space. *)
Lemma trim_decompose (s : jsstring) :
  exists lead trail,
    s = lead ++ trim s ++ trail
    /\ forallb isWhiteSpace lead = true
    /\ forallb isWhiteSpace trail = true.
Proof.
  unfold trim, trimEnd, trimStart.
  destruct (dropWhile_suffix isWhiteSpace s) as [lead [Hs Hlead]].
  destruct (dropWhile_suffix isWhiteSpace (rev (dropWhile isWhiteSpace s)))
    as [tr [Hr Htr]].
  exists lead, (rev tr). repeat split; [|assumption|].
  - rewrite <- rev_app_distr, <- Hr, rev_involutive. exact Hs.
  - rewrite forallb_rev. exact Htr.
Qed.

(** The escaped raw text is longer than the escaped trimmed text whenever
    trimming removed something. *)
Lemma encode_raw_differs (raw target : jsstring) :
  trim raw <> raw ->
  encodeURIComponent (trim raw) = Some target ->
  encodeURIComponent raw <> Some target.
Proof.
  intros Hneq Henc Hraw.
  destruct (trim_decompose raw) as [lead [trail [Hs [Hlead Htrail]]]].
  destruct (encode_whitespace lead Hlead) as [el [Hel Hll]].
  destruct (encode_whitespace trail Htrail) as [et [Het Hlt]].
  assert (Hcore : encodeURIComponent (trim raw ++ trail) = Some (target ++ et)).
  { rewrite encode_app by (apply whitespace_not_startsLow; assumption).
    rewrite Henc, Het. reflexivity. }
  assert (Hall : encodeURIComponent raw = Some (el ++ target ++ et)).
  { rewrite Hs at 1. rewrite encode_app.
    - rewrite Hel, Hcore. reflexivity.
    - destruct (trim raw) as [|c core] eqn:Hcoreq.
      + cbn. apply whitespace_not_startsLow. assumption.
      + cbn. destruct (isLowSurrogate c) eqn:Hlow; [|reflexivity].
        cbn [encodeURIComponent] in Henc.
        destruct (isUnreserved c) eqn:Hu.
        * exfalso. clear - Hu Hlow. charset. lia.
        * rewrite Hlow in Henc. discriminate. }
  rewrite Hall in Hraw. injection Hraw as Hraw.
  apply (f_equal (@length N)) in Hraw. rewrite !length_app in Hraw.
  assert (length lead = 0 /\ length trail = 0)%nat as [H1 H2] by lia.
  apply length_zero_iff_nil in H1, H2. subst lead trail.
  apply Hneq. rewrite Hs at 2. cbn. rewrite app_nil_r. reflexivity.
Qed.

(** ** Both handlers at once *)

Lemma handle_trace (E : Engine) (net : Network) (st : ViewState) (a : Action) :
  handle E net st a =
  (if validates st a
   then preamble E a
        ++ requestEvents E net (originOf a) (trim (queryOf st a)) (queryOf st a)
        ++ [SetLoading false]
   else [SetError (lit "Please enter a food item")],
   inr tt).
Proof.
  destruct a as [|food]; cbn [handle validates preamble originOf queryOf].
  - apply analyzeFood_trace.
  - apply handleQuickAnalysis_trace.
Qed.

Lemma preamble_frame (E : Engine) (st : ViewState) (a : Action) :
  nutritionData (applyTrace st (preamble E a)) = nutritionData st
  /\ error (applyTrace st (preamble E a)) = [].
Proof. destruct a; split; reflexivity. Qed.

Lemma caught_effect (st : ViewState) (err : JsError) :
  applyTrace st (caughtEvents err)
  = mkState (foodItem st) (loading st) (nutritionData st)
            (str_or (message err) genericFailure) (darkMode st).
Proof. reflexivity. Qed.

(** The state after a submission whose request phase ended in [catch],
    with or without a request before it. *)
Lemma caught_submission (E : Engine) (st : ViewState) (a : Action)
    (pre : list Event) (err : JsError) :
  (forall s, applyTrace s pre = s) ->
  let st' := applyTrace st (preamble E a ++ (pre ++ caughtEvents err)
                              ++ [SetLoading false]) in
  nutritionData st' = nutritionData st
  /\ error st' = str_or (message err) genericFailure
  /\ loading st' = false.
Proof.
  intros Hpre. cbv zeta.
  rewrite !applyTrace_app, Hpre, caught_effect.
  destruct (preamble_frame E st a) as [Hdata _].
  cbn. rewrite Hdata. repeat split.
Qed.

Lemma fetch_frame (u : jsstring) (s : ViewState) : applyTrace s [Fetch u] = s.
Proof. reflexivity. Qed.

Lemma nil_frame (s : ViewState) : applyTrace s [] = s.
Proof. reflexivity. Qed.

(** Every failure path stores a message, clears the busy flag if it was
    raised, and leaves the result slot alone. *)
Lemma failure_state (E : Engine) (net : Network) (st : ViewState) (a : Action) :
  FailurePath net st a ->
  nutritionData (finalState st (handle E net st a)) = nutritionData st
  /\ str_truthy (error (finalState st (handle E net st a))) = true
  /\ loading (finalState st (handle E net st a))
     = (if validates st a then false else loading st).
Proof.
  unfold finalState. rewrite handle_trace. unfold trace, fst.
  unfold requestEvents, replyEvents.
  intros [Hv | Hv Henc | target err Hv Henc Hnet
          | target resp Hv Henc Hnet Hok
          | target resp err Hv Henc Hnet Hok Hjson
          | target resp data Hv Henc Hnet Hok Hjson Hshape];
    rewrite Hv.
  - split; [reflexivity | split; reflexivity].
  - rewrite Henc.
    destruct (caught_submission E st a [] (mkError (uriErrorMessage E)) nil_frame)
      as [H1 [H2 H3]].
    cbn [app] in H1, H2, H3 |- *. rewrite H1, H2, H3.
    split; [reflexivity | split; [apply caught_message_truthy | reflexivity]].
  - rewrite Henc, Hnet.
    destruct (caught_submission E st a [Fetch (originOf a ++ target)] err
                (fetch_frame _)) as [H1 [H2 H3]].
    cbn [app] in H1, H2, H3 |- *. rewrite H1, H2, H3.
    split; [reflexivity | split; [apply caught_message_truthy | reflexivity]].
  - rewrite Henc, Hnet, Hok.
    destruct (caught_submission E st a [Fetch (originOf a ++ target)]
                (failedToAnalyze (queryOf st a)) (fetch_frame _))
      as [H1 [H2 H3]].
    cbn [app] in H1, H2, H3 |- *. rewrite H1, H2, H3.
    split; [reflexivity | split; [apply caught_message_truthy | reflexivity]].
  - rewrite Henc, Hnet, Hok, Hjson.
    destruct (caught_submission E st a [Fetch (originOf a ++ target)] err
                (fetch_frame _)) as [H1 [H2 H3]].
    cbn [app] in H1, H2, H3 |- *. rewrite H1, H2, H3.
    split; [reflexivity | split; [apply caught_message_truthy | reflexivity]].
  - rewrite Henc, Hnet, Hok, Hjson, Hshape.
    destruct (caught_submission E st a [Fetch (originOf a ++ target)]
                invalidResponse (fetch_frame _)) as [H1 [H2 H3]].
    cbn [app] in H1, H2, H3 |- *. rewrite H1, H2, H3.
    split; [reflexivity | split; [apply caught_message_truthy | reflexivity]].
Qed.

(** ** What an escaped string is made of *)

Lemma hexDigit_unreserved (d : N) :
  (d < 16)%N -> isUnreserved (hexDigit d) = true.
Proof.
  intros Hd. unfold hexDigit.
  destruct (N.ltb_spec d 10); charset; lia.
Qed.

Lemma pctOctet_uri (b : N) :
  (b < 256)%N -> forallb isUriChar (pctOctet b) = true.
Proof.
  intros Hb. unfold pctOctet, isUriChar. cbn [forallb].
  rewrite !hexDigit_unreserved.
  - reflexivity.
  - apply N.mod_lt. discriminate.
  - apply N.Div0.div_lt_upper_bound. exact Hb.
Qed.

Lemma utf8_octets (cp : N) :
  (cp < 2097152)%N -> Forall (fun b => (b < 256)%N) (utf8 cp).
Proof.
  intros Hcp. unfold utf8.
  assert (Hm : forall x, (128 + x mod 64 < 256)%N).
  { intros x. pose proof (N.mod_lt x 64). lia. }
  destruct (N.ltb_spec cp 128); [repeat constructor; lia|].
  destruct (N.ltb_spec cp 2048).
  { repeat constructor; [|apply Hm].
    assert (cp / 64 < 32)%N by (apply N.Div0.div_lt_upper_bound; lia). lia. }
  destruct (N.ltb_spec cp 65536).
  { repeat constructor; try apply Hm.
    assert (cp / 4096 < 16)%N by (apply N.Div0.div_lt_upper_bound; lia). lia. }
  repeat constructor; try apply Hm.
  assert (cp / 262144 < 8)%N by (apply N.Div0.div_lt_upper_bound; lia). lia.
Qed.

Lemma pctEncode_uri (cp : N) :
  (cp < 2097152)%N -> forallb isUriChar (pctEncode cp) = true.
Proof.
  intros Hcp. unfold pctEncode.
  pose proof (utf8_octets Hcp) as Hoct.
  induction Hoct as [|b bs Hb _ IH]; [reflexivity|].
  cbn [flat_map]. rewrite forallb_app, IH, (pctOctet_uri Hb). reflexivity.
Qed.

Lemma pairCodePoint_bound (hi lo : N) :
  isHighSurrogate hi = true -> isLowSurrogate lo = true ->
  (pairCodePoint hi lo < 2097152)%N.
Proof. intros Hhi Hlo. unfold pairCodePoint. charset. lia. Qed.

(** The escape of a well-formed string holds only unreserved characters
    and percent signs. *)
Lemma encode_uri_pair (s : jsstring) :
  (forallb isCodeUnit s = true ->
   forall e, encodeURIComponent s = Some e -> forallb isUriChar e = true)
  /\ (forall c, forallb isCodeUnit (c :: s) = true ->
      forall e, encodeURIComponent (c :: s) = Some e ->
                forallb isUriChar e = true).
Proof.
  assert (Hone : forall c rest,
             (forallb isCodeUnit rest = true ->
              forall e, encodeURIComponent rest = Some e ->
                        forallb isUriChar e = true) ->
             (forall d rest', rest = d :: rest' ->
                forallb isCodeUnit rest' = true ->
                forall e, encodeURIComponent rest' = Some e ->
                          forallb isUriChar e = true) ->
             forallb isCodeUnit (c :: rest) = true ->
             forall e, encodeURIComponent (c :: rest) = Some e ->
                       forallb isUriChar e = true).
  { intros c rest IHrest IHskip Hwf e Henc.
    cbn [forallb] in Hwf. apply andb_true_iff in Hwf as [Hc Hrest].
    cbn [encodeURIComponent] in Henc.
    destruct (isUnreserved c) eqn:Hu.
    { destruct (encodeURIComponent rest) as [e'|]; [|discriminate].
      injection Henc as <-. cbn [forallb]. unfold isUriChar at 1.
      rewrite Hu. cbn. apply (IHrest Hrest). reflexivity. }
    destruct (isLowSurrogate c); [discriminate|].
    destruct (isHighSurrogate c) eqn:Hhi.
    { destruct rest as [|d rest']; [discriminate|].
      destruct (isLowSurrogate d) eqn:Hlo; [|discriminate].
      destruct (encodeURIComponent rest') as [e'|] eqn:He'; [|discriminate].
      injection Henc as <-. rewrite forallb_app.
      rewrite (pctEncode_uri (pairCodePoint_bound _ _ Hhi Hlo)).
      cbn [forallb] in Hrest. apply andb_true_iff in Hrest as [_ Hrest'].
      apply (IHskip d rest' eq_refl Hrest' e' He'). }
    destruct (encodeURIComponent rest) as [e'|]; [|discriminate].
    injection Henc as <-. rewrite forallb_app.
    rewrite pctEncode_uri.
    - apply (IHrest Hrest). reflexivity.
    - unfold isCodeUnit in Hc. apply N.ltb_lt in Hc. lia. }
  induction s as [|d rest [IH1 IH2]].
  - split.
    + intros _ e He. injection He as <-. reflexivity.
    + intros c. apply Hone.
      * intros _ e He. injection He as <-. reflexivity.
      * intros d rest' Hnil. discriminate.
  - split; [apply IH2|].
    intros c. apply Hone; [apply IH2|].
    intros d' rest' Heq. injection Heq as <- <-. exact IH1.
Qed.

Lemma encode_uri (s e : jsstring) :
  forallb isCodeUnit s = true ->
  encodeURIComponent s = Some e ->
  forallb isUriChar e = true.
Proof. intros Hwf. apply encode_uri_pair. exact Hwf. Qed.

Lemma whitespace_not_uri (c : N) : isWhiteSpace c = true -> isUriChar c = false.
Proof.
  intros H. apply not_true_is_false. intros H'. unfold isUriChar in H'.
  charset. lia.
Qed.

(** The escape of the trimmed text is never the raw text itself, when
    trimming changes the raw text. *)
Lemma escaped_is_not_raw (raw target : jsstring) :
  forallb isCodeUnit raw = true ->
  trim raw <> raw ->
  encodeURIComponent (trim raw) = Some target ->
  target <> raw.
Proof.
  intros Hwf Hneq Henc Heq. subst target.
  destruct (trim_decompose raw) as [lead [trail [Hs [Hlead Htrail]]]].
  assert (Hcore : forallb isCodeUnit (trim raw) = true).
  { rewrite Hs, !forallb_app in Hwf.
    apply andb_true_iff in Hwf as [_ Hwf].
    apply andb_true_iff in Hwf as [Hwf _]. exact Hwf. }
  pose proof (encode_uri _ Hcore Henc) as Huri.
  assert (Hnone : forall w, forallb isWhiteSpace w = true ->
                            forallb isUriChar w = true -> w = []).
  { intros [|c w] Hw Hu; [reflexivity|]. cbn [forallb] in Hw, Hu.
    apply andb_true_iff in Hw as [Hc _]. apply andb_true_iff in Hu as [Hc' _].
    rewrite (whitespace_not_uri _ Hc) in Hc'. discriminate. }
  rewrite Hs, !forallb_app in Huri.
  apply andb_true_iff in Huri as [Hl Huri].
  apply andb_true_iff in Huri as [_ Ht].
  rewrite (Hnone lead Hlead Hl), (Hnone trail Htrail Ht) in Hs.
  apply Hneq. cbn [app] in Hs. rewrite app_nil_r in Hs. symmetry. exact Hs.
Qed.

(** ** The request target (C2) *)

Lemma quickOrigin_split :
  quickOrigin = lit "http://localhost:8000" ++ lit "/api/analyze/".
Proof. vm_compute. reflexivity. Qed.

(** C2. For a raw input whose trimmed form is not empty, each handler
    dispatches at most one request, and exactly one when the trimmed text can
    be escaped.  Its address is [/api/analyze/] followed by
    [encodeURIComponent] of the trimmed text; [handleQuickAnalysis] writes
    the address with the origin [http://localhost:8000] in front, and
    [fetch] is called with the address alone, hence as a GET.  When trimming
    removed anything, the escaped trimmed text is neither the escaped raw
    text nor the raw text itself, so the request never carries the raw
    input. *)
Theorem dispatch_targets_trimmed_query (E : Engine) (net : Network)
    (st : ViewState) (raw : jsstring) :
  foodItem st = raw ->
  str_truthy (trim raw) = true ->
  fetched (trace (analyzeFood E net st))
  = match encodeURIComponent (trim raw) with
    | Some target => [lit "/api/analyze/" ++ target]
    | None => []
    end
  /\ fetched (trace (handleQuickAnalysis E net raw))
     = match encodeURIComponent (trim raw) with
       | Some target =>
           [lit "http://localhost:8000" ++ lit "/api/analyze/" ++ target]
       | None => []
       end
  /\ (trim raw <> raw ->
      forall target,
        encodeURIComponent (trim raw) = Some target ->
        encodeURIComponent raw <> Some target
        /\ (forallb isCodeUnit raw = true -> target <> raw)).
Proof.
  intros Hraw Hvalid. split; [|split].
  - rewrite analyzeFood_trace, Hraw, Hvalid. unfold trace, fst.
    rewrite !fetched_app, requestEvents_fetched. cbn [fetched flat_map app].
    rewrite app_nil_r. reflexivity.
  - rewrite handleQuickAnalysis_trace. unfold trace, fst.
    rewrite !fetched_app, requestEvents_fetched. cbn [fetched flat_map app].
    rewrite app_nil_r, quickOrigin_split.
    destruct (encodeURIComponent (trim raw)); [|reflexivity].
    rewrite <- app_assoc. reflexivity.
  - intros Hneq target Henc. split.
    + apply encode_raw_differs; assumption.
    + intros Hwf. apply escaped_is_not_raw; assumption.
Qed.

Lemma dispatch_targets_trimmed_query_witness :
  fetched (trace (analyzeFood asciiEngine (serving bananaResult) bananaState))
  = [lit "/api/analyze/Banana"]
  /\ fetched (trace (handleQuickAnalysis asciiEngine (serving bananaResult)
                       (lit "  Banana ")))
     = [lit "http://localhost:8000/api/analyze/Banana"]
  /\ encodeURIComponent (lit "  Banana ") <> Some (lit "Banana")
  /\ lit "Banana" <> lit "  Banana ".
Proof.
  destruct (@dispatch_targets_trimmed_query asciiEngine (serving bananaResult)
              bananaState (lit "  Banana ") eq_refl eq_refl)
    as [Hsubmit [Hquick Hraw]].
  split; [|split].
  - rewrite Hsubmit. vm_compute. reflexivity.
  - rewrite Hquick. vm_compute. reflexivity.
  - destruct (Hraw ltac:(vm_compute; discriminate) (lit "Banana")
                ltac:(vm_compute; reflexivity)) as [Hescaped Hplain].
    split; [exact Hescaped | apply Hplain; vm_compute; reflexivity].
Defined.

(** ** Failures keep the result on display (C4) *)

(** C4. On every failure path, whichever handler ran (validation of the
    typed query, a query that cannot be escaped, a rejected request, a
    status that is not a success, an unreadable body, a body of the wrong
    shape), the stored nutrition data is what it was before, and the error
    slot holds a non-empty message. *)
Theorem failure_keeps_result (E : Engine) (net : Network) (st : ViewState)
    (a : Action) :
  FailurePath net st a ->
  nutritionData (finalState st (handle E net st a)) = nutritionData st
  /\ error (finalState st (handle E net st a)) <> [].
Proof.
  intros Hfail.
  destruct (failure_state E Hfail) as [Hdata [Herr _]].
  split; [exact Hdata|].
  intros Hnil. rewrite Hnil in Herr. discriminate.
Qed.

Lemma failure_keeps_result_witness :
  nutritionData (finalState shownState
                   (handle asciiEngine shapeless shownState Search))
  = bananaResult
  /\ error (finalState shownState
              (handle asciiEngine shapeless shownState Search)) <> [].
Proof.
  apply (@failure_keeps_result asciiEngine shapeless shownState Search).
  apply (@ShapeFails shapeless shownState Search (lit "pizza") shapelessResponse
           (VObject [(lit "food", VString (lit "pizza"))])).
  - vm_compute. reflexivity.
  - vm_compute. reflexivity.
  - reflexivity.
  - reflexivity.
  - reflexivity.
  - vm_compute. reflexivity.
Defined.

(** ** Shape of a successful response (C5) *)

Lemma lookup_undefined_falsy (data : value) :
  lacksBreakdown data -> badShape data = true.
Proof.
  unfold lacksBreakdown, badShape.
  intros [-> | [-> | Hprop]]; [reflexivity | reflexivity |].
  rewrite Hprop. cbn. apply orb_true_r.
Qed.

(** C5. When the request passed the guard and was dispatched, the status is
    a success, and the parsed body is absent or has no [detailed_breakdown],
    the submission ends with the fixed message
    'Invalid response from server' in the error slot, the busy flag cleared
    and the stored result untouched. *)
Theorem shapeless_success_is_invalid (E : Engine) (net : Network)
    (st : ViewState) (a : Action) (target : jsstring) (resp : Response)
    (data : value) :
  validates st a = true ->
  encodeURIComponent (trim (queryOf st a)) = Some target ->
  net (originOf a ++ target) = inr resp ->
  ok resp = true ->
  json resp = inr data ->
  lacksBreakdown data ->
  error (finalState st (handle E net st a)) = lit "Invalid response from server"
  /\ nutritionData (finalState st (handle E net st a)) = nutritionData st
  /\ loading (finalState st (handle E net st a)) = false.
Proof.
  intros Hv Henc Hnet Hok Hjson Hlacks.
  apply lookup_undefined_falsy in Hlacks.
  unfold finalState. rewrite handle_trace, Hv. unfold trace, fst.
  unfold requestEvents, replyEvents. rewrite Henc, Hnet, Hok, Hjson, Hlacks.
  destruct (caught_submission E st a [Fetch (originOf a ++ target)]
              invalidResponse (fetch_frame _)) as [H1 [H2 H3]].
  cbn [app] in H1, H2, H3 |- *. rewrite H1, H2, H3.
  split; [reflexivity | split; reflexivity].
Qed.

Lemma shapeless_success_is_invalid_witness :
  error (finalState shownState
           (handle asciiEngine shapeless shownState (QuickPick (lit "Quinoa"))))
  = lit "Invalid response from server"
  /\ nutritionData
       (finalState shownState
          (handle asciiEngine shapeless shownState (QuickPick (lit "Quinoa"))))
     = bananaResult
  /\ loading
       (finalState shownState
          (handle asciiEngine shapeless shownState (QuickPick (lit "Quinoa"))))
     = false.
Proof.
  apply (@shapeless_success_is_invalid asciiEngine shapeless shownState
           (QuickPick (lit "Quinoa")) (lit "Quinoa") shapelessResponse
           (VObject [(lit "food", VString (lit "pizza"))])).
  - reflexivity.
  - vm_compute. reflexivity.
  - reflexivity.
  - reflexivity.
  - reflexivity.
  - right. right. vm_compute. reflexivity.
Defined.

(** ** Request failures (C6) *)

(** C6, as amended.  When the request passed the guard and was dispatched:
    if the promise of [fetch] rejects, the error slot receives the message
    of the rejection, or the fixed text 'Failed to analyze food. Please try
    again.' when that message is empty; if the response has a status that is
    not a success, the error slot receives 'Failed to analyze <text>. Please
    try again.', where <text> is the raw text of the query, and the body of
    the response is never read, so the message is the same whatever the
    server put there.  In both cases the busy flag ends cleared and the
    stored result is untouched. *)
Theorem request_failure_message (E : Engine) (net : Network) (st : ViewState)
    (a : Action) (target : jsstring) :
  validates st a = true ->
  encodeURIComponent (trim (queryOf st a)) = Some target ->
  requestFailed (net (originOf a ++ target)) = true ->
  error (finalState st (handle E net st a))
  = match net (originOf a ++ target) with
    | inl err =>
        str_or (message err) (lit "Failed to analyze food. Please try again.")
    | inr _ =>
        lit "Failed to analyze " ++ queryOf st a ++ lit ". Please try again."
    end
  /\ loading (finalState st (handle E net st a)) = false
  /\ nutritionData (finalState st (handle E net st a)) = nutritionData st.
Proof.
  intros Hv Henc Hfailed.
  unfold finalState. rewrite handle_trace, Hv. unfold trace, fst.
  unfold requestEvents, replyEvents. rewrite Henc.
  destruct (net (originOf a ++ target)) as [err|resp]; cbn in Hfailed.
  - destruct (caught_submission E st a [Fetch (originOf a ++ target)] err
                (fetch_frame _)) as [H1 [H2 H3]].
    cbn [app] in H1, H2, H3 |- *. rewrite H1, H2, H3.
    split; [reflexivity | split; reflexivity].
  - apply negb_true_iff in Hfailed. rewrite Hfailed.
    destruct (caught_submission E st a [Fetch (originOf a ++ target)]
                (failedToAnalyze (queryOf st a)) (fetch_frame _))
      as [H1 [H2 H3]].
    cbn [app] in H1, H2, H3 |- *. rewrite H1, H2, H3.
    split; [reflexivity | split; reflexivity].
Qed.

Lemma request_failure_message_witness :
  error (finalState shownState (handle asciiEngine refusing shownState Search))
  = lit "Failed to analyze pizza. Please try again."
  /\ loading (finalState shownState
                (handle asciiEngine refusing shownState Search)) = false
  /\ nutritionData (finalState shownState
                      (handle asciiEngine refusing shownState Search))
     = bananaResult.
Proof.
  destruct (@request_failure_message asciiEngine refusing shownState Search
              (lit "pizza") eq_refl eq_refl eq_refl) as [Hmsg Hrest].
  split.
  - rewrite Hmsg. vm_compute. reflexivity.
  - exact Hrest.
Defined.

(** C6, as stated, fails: a response with a status that is not a success
    and a body carrying the server's explanation (under [detail], [message]
    and [error] alike) leaves the templated message in the error slot, and
    the explanation appears nowhere in it. *)
Lemma server_detail_not_surfaced :
  ~ (forall (E : Engine) (net : Network) (st : ViewState) (a : Action)
            (target : jsstring) (resp : Response) (body : value)
            (key detail : jsstring),
        validates st a = true ->
        encodeURIComponent (trim (queryOf st a)) = Some target ->
        net (originOf a ++ target) = inr resp ->
        ok resp = false ->
        json resp = inr body ->
        getProp body key = VString detail ->
        includes detail (error (finalState st (handle E net st a))) = true).
Proof.
  intros Hclaim.
  specialize (Hclaim asciiEngine refusing shownState Search (lit "pizza")
                refusingResponse
                (VObject [(lit "detail", VString serverDetail);
                          (lit "message", VString serverDetail);
                          (lit "error", VString serverDetail)])
                (lit "detail") serverDetail
                eq_refl eq_refl eq_refl eq_refl eq_refl eq_refl).
  vm_compute in Hclaim. discriminate.
Qed.

(** ** Quick selection (C7) *)

(** C7, as amended.  For each of the eight suggestions,
    [handleQuickAnalysis] first clears the error slot, then sets the query
    text to the suggestion in lower case, then raises the busy flag, and
    only then dispatches its one request; the query text is still that
    lower-case name when the handler is done.  The request is for the
    suggestion as it is listed, capital letters included, so the text on
    display is the lower-case form of what was analysed.  For 'Avocado' the
    text on display is 'avocado' and the request is for 'Avocado'. *)
Theorem quick_pick_shows_lowercase (E : Engine) (net : Network)
    (st : ViewState) (food : jsstring) :
  In food quickSuggestions ->
  (exists target rest,
      encodeURIComponent food = Some target
      /\ trim food = food
      /\ trace (handleQuickAnalysis E net food)
         = [SetError []; SetFoodItem (List.map asciiLower food);
            SetLoading true; Fetch (quickOrigin ++ target)] ++ rest
      /\ fetched rest = [])
  /\ foodItem (finalState st (handleQuickAnalysis E net food))
     = List.map asciiLower food
  /\ foodItem (finalState st (handleQuickAnalysis E net food))
     = toLowerCase E (trim food)
  /\ (food = lit "Avocado" ->
      foodItem (finalState st (handleQuickAnalysis E net food)) = lit "avocado").
Proof.
  intros Hin.
  assert (Hfacts : exists target,
             encodeURIComponent food = Some target /\ trim food = food
             /\ toLowerCase E food = List.map asciiLower food).
  { cbn [quickSuggestions In] in Hin.
    repeat (destruct Hin as [<- | Hin];
            [eexists; split; [vm_compute; reflexivity|];
             split; vm_compute; reflexivity |]).
    destruct Hin. }
  destruct Hfacts as [target [Henc [Htrim Hlower]]].
  assert (Hshown : foodItem (finalState st (handleQuickAnalysis E net food))
                   = List.map asciiLower food).
  { unfold finalState. rewrite handleQuickAnalysis_trace. unfold trace, fst.
    rewrite Htrim, Hlower.
    destruct (requestEvents_shape E net quickOrigin food food)
      as [[err [_ ->]] | [[tg [err [_ ->]]] | [tg [data [_ ->]]]]];
      reflexivity. }
  split; [|split; [exact Hshown | split]].
  - exists target, (replyEvents food (net (quickOrigin ++ target))
                    ++ [SetLoading false]).
    split; [exact Henc | split; [exact Htrim | split]].
    + rewrite handleQuickAnalysis_trace. unfold trace, fst.
      unfold requestEvents. rewrite Htrim, Henc, Hlower. reflexivity.
    + rewrite fetched_app. unfold replyEvents.
      destruct (net (quickOrigin ++ target)) as [err|resp]; [reflexivity|].
      destruct (ok resp); [|reflexivity].
      destruct (json resp) as [err|data]; [reflexivity|].
      destruct (badShape data); reflexivity.
  - rewrite Hshown, Htrim. symmetry. exact Hlower.
  - intros ->. rewrite Hshown. vm_compute. reflexivity.
Qed.

Lemma quick_pick_shows_lowercase_witness :
  foodItem (finalState initialState
              (handleQuickAnalysis asciiEngine (serving bananaResult)
                 (lit "Avocado")))
  = lit "avocado".
Proof.
  destruct (@quick_pick_shows_lowercase asciiEngine (serving bananaResult)
              initialState (lit "Avocado"))
    as [_ [_ [_ Havocado]]].
  - vm_compute. right. left. reflexivity.
  - apply Havocado. reflexivity.
Defined.

(** C7, as stated, fails: the text on display is not what was analysed.
    After picking 'Avocado' the display reads 'avocado', whose request would
    go to [.../api/analyze/avocado], while the request dispatched goes to
    [.../api/analyze/Avocado]. *)
Lemma quick_pick_display_differs :
  ~ (forall (E : Engine) (net : Network) (st : ViewState) (food : jsstring),
        In food quickSuggestions ->
        exists target,
          encodeURIComponent
            (foodItem (finalState st (handleQuickAnalysis E net food)))
          = Some target
          /\ fetched (trace (handleQuickAnalysis E net food))
             = [quickOrigin ++ target]).
Proof.
  intros Hclaim.
  destruct (Hclaim asciiEngine (serving bananaResult) initialState
              (lit "Avocado")) as [target [Henc Hfetch]].
  - vm_compute. right. left. reflexivity.
  - vm_compute in Henc. injection Henc as <-.
    vm_compute in Hfetch. discriminate.
Qed.

(** ** Score tiers and nutrient status (C8, C9) *)

Lemma num_ge_int (q : Q) (z : Z) :
  num_ge (Fin q) (int z) = true <-> inject_Z z <= q.
Proof. unfold num_ge, num_le, int. apply Qle_bool_iff. Qed.

Lemma num_lt_int (q : Q) (z : Z) :
  num_lt (Fin q) (int z) = true <-> q < inject_Z z.
Proof.
  unfold num_lt, int. rewrite negb_true_iff.
  destruct (Qle_bool (inject_Z z) q) eqn:H.
  - apply Qle_bool_iff in H. split; [discriminate|].
    intros Hlt. exfalso. apply (Qlt_not_le _ _ Hlt H).
  - split; [|reflexivity]. intros _. apply Qnot_le_lt. intros Hle.
    apply Qle_bool_iff in Hle. congruence.
Qed.

Lemma num_gt_int (q : Q) (z : Z) :
  num_gt (Fin q) (int z) = true <-> inject_Z z < q.
Proof.
  unfold num_gt, num_lt, int. rewrite negb_true_iff.
  destruct (Qle_bool q (inject_Z z)) eqn:H.
  - apply Qle_bool_iff in H. split; [discriminate|].
    intros Hlt. exfalso. apply (Qlt_not_le _ _ Hlt H).
  - split; [|reflexivity]. intros _. apply Qnot_le_lt. intros Hle.
    apply Qle_bool_iff in Hle. congruence.
Qed.

Lemma num_le_int (q : Q) (z : Z) :
  num_le (Fin q) (int z) = true <-> q <= inject_Z z.
Proof. unfold num_le, int. apply Qle_bool_iff. Qed.

(** On numbers that are not NaN, [<] is the negation of [>=] and [<=] the
    negation of [>]. *)
Lemma num_lt_not_ge (x y : number) :
  num_lt x y = true -> num_ge x y = false.
Proof.
  unfold num_lt, num_ge, num_le.
  destruct x, y; try discriminate; try reflexivity.
  intros H. apply negb_true_iff in H. exact H.
Qed.

Lemma num_le_not_gt (x y : number) :
  num_le x y = true -> num_gt x y = false.
Proof.
  unfold num_le, num_gt, num_lt.
  destruct x, y; try discriminate; try reflexivity.
  intros H. rewrite H. reflexivity.
Qed.

Lemma num_ge_trans_int (x : number) (hi lo : Z) :
  (lo <= hi)%Z -> num_ge x (int hi) = true -> num_ge x (int lo) = true.
Proof.
  intros Hz. destruct x as [| | |q]; try (cbn; congruence).
  rewrite !num_ge_int. intros H.
  apply Qle_trans with (inject_Z hi); [|exact H].
  rewrite <- Zle_Qle. exact Hz.
Qed.

Lemma num_gt_trans_int (x : number) (hi lo : Z) :
  (lo <= hi)%Z -> num_gt x (int hi) = true -> num_gt x (int lo) = true.
Proof.
  intros Hz. destruct x as [| | |q]; try (cbn; congruence).
  rewrite !num_gt_int. intros H.
  apply Qle_lt_trans with (inject_Z hi); [|exact H].
  rewrite <- Zle_Qle. exact Hz.
Qed.

(** C8. [getScoreDescription] returns one of four labels, one per tier:
    'Excellent Choice' when score >= 80, 'Good Option' when
    60 <= score < 80, 'Fair Choice' when 40 <= score < 60 and
    'Consider Alternatives' when score < 40, with the comparisons of
    JavaScript numbers.  [getScoreColor] and the class of the progress bar
    switch at the same cut points.  At the boundary values: 80 is excellent,
    79.9 and 60 are good, 59.9 and 40 are fair, 39.9 is poor. *)
Theorem score_tiers (score : number) :
  (getScoreDescription score = lit "Excellent Choice"
   \/ getScoreDescription score = lit "Good Option"
   \/ getScoreDescription score = lit "Fair Choice"
   \/ getScoreDescription score = lit "Consider Alternatives")
  /\ (num_ge score (int 80) = true ->
      getScoreDescription score = lit "Excellent Choice"
      /\ getScoreColor score = lit "text-green-500"
      /\ scoreBarClass score = lit "bg-green-500")
  /\ (num_ge score (int 60) = true -> num_lt score (int 80) = true ->
      getScoreDescription score = lit "Good Option"
      /\ getScoreColor score = lit "text-yellow-500"
      /\ scoreBarClass score = lit "bg-yellow-500")
  /\ (num_ge score (int 40) = true -> num_lt score (int 60) = true ->
      getScoreDescription score = lit "Fair Choice"
      /\ getScoreColor score = lit "text-orange-500"
      /\ scoreBarClass score = lit "bg-orange-500")
  /\ (num_lt score (int 40) = true ->
      getScoreDescription score = lit "Consider Alternatives"
      /\ getScoreColor score = lit "text-red-500"
      /\ scoreBarClass score = lit "bg-red-500")
  /\ getScoreDescription (int 80) = lit "Excellent Choice"
  /\ getScoreDescription (Fin (799 # 10)) = lit "Good Option"
  /\ getScoreDescription (int 60) = lit "Good Option"
  /\ getScoreDescription (Fin (599 # 10)) = lit "Fair Choice"
  /\ getScoreDescription (int 40) = lit "Fair Choice"
  /\ getScoreDescription (Fin (399 # 10)) = lit "Consider Alternatives".
Proof.
  unfold getScoreDescription, getScoreColor, scoreBarClass.
  split; [|split; [|split; [|split; [|split]]]].
  - destruct (num_ge score (int 80)); [auto|].
    destruct (num_ge score (int 60)); [auto|].
    destruct (num_ge score (int 40)); auto.
  - intros ->. repeat split.
  - intros H60 H80. apply num_lt_not_ge in H80. rewrite H80, H60.
    repeat split.
  - intros H40 H60. apply num_lt_not_ge in H60.
    assert (H80 : num_ge score (int 80) = false).
    { destruct (num_ge score (int 80)) eqn:H; [|reflexivity].
      apply (@num_ge_trans_int score 80%Z 60%Z) in H; [congruence | lia]. }
    rewrite H80, H60, H40. repeat split.
  - intros H40. apply num_lt_not_ge in H40.
    assert (H60 : num_ge score (int 60) = false).
    { destruct (num_ge score (int 60)) eqn:H; [|reflexivity].
      apply (@num_ge_trans_int score 60%Z 40%Z) in H; [congruence | lia]. }
    assert (H80 : num_ge score (int 80) = false).
    { destruct (num_ge score (int 80)) eqn:H; [|reflexivity].
      apply (@num_ge_trans_int score 80%Z 40%Z) in H; [congruence | lia]. }
    rewrite H80, H60, H40. repeat split.
  - repeat split.
Qed.

Lemma score_tiers_witness :
  getScoreDescription (Fin (799 # 10)) = lit "Good Option"
  /\ getScoreColor (Fin (799 # 10)) = lit "text-yellow-500"
  /\ scoreBarClass (Fin (799 # 10)) = lit "bg-yellow-500".
Proof.
  destruct (score_tiers (Fin (799 # 10))) as [_ [_ [Hgood _]]].
  apply Hgood; reflexivity.
Defined.

(** The label determines the range, NaN going with the last tier. *)
Lemma score_label_range (score : number) :
  (getScoreDescription score = lit "Excellent Choice" ->
   num_ge score (int 80) = true)
  /\ (getScoreDescription score = lit "Good Option" ->
      num_ge score (int 60) = true /\ num_ge score (int 80) = false)
  /\ (getScoreDescription score = lit "Fair Choice" ->
      num_ge score (int 40) = true /\ num_ge score (int 60) = false)
  /\ (getScoreDescription score = lit "Consider Alternatives" ->
      num_ge score (int 40) = false).
Proof.
  unfold getScoreDescription.
  destruct (num_ge score (int 80)); [|destruct (num_ge score (int 60));
    [|destruct (num_ge score (int 40))]];
    (split; [|split; [|split]]); intros Hlabel;
    try (vm_compute in Hlabel; discriminate); auto.
Qed.

(** C9. The status label of a nutrient row is 'High' when amount > 10,
    'Good' when 5 < amount <= 10 and 'Low' when amount <= 5, with the
    comparisons of JavaScript numbers; the badge class switches at the same
    cut points.  In particular 10 is good, 10.1 is high, 5 is low and 5.1 is
    good. *)
Theorem nutrient_status_cut_points (amount : number) :
  (num_gt amount (int 10) = true ->
   nutrientStatus amount = lit "High"
   /\ nutrientBadgeClass amount = lit "bg-green-100 text-green-800")
  /\ (num_gt amount (int 5) = true -> num_le amount (int 10) = true ->
      nutrientStatus amount = lit "Good"
      /\ nutrientBadgeClass amount = lit "bg-yellow-100 text-yellow-800")
  /\ (num_le amount (int 5) = true ->
      nutrientStatus amount = lit "Low"
      /\ nutrientBadgeClass amount = lit "bg-blue-100 text-blue-800")
  /\ nutrientStatus (int 10) = lit "Good"
  /\ nutrientStatus (Fin (101 # 10)) = lit "High"
  /\ nutrientStatus (int 5) = lit "Low"
  /\ nutrientStatus (Fin (51 # 10)) = lit "Good".
Proof.
  unfold nutrientStatus, nutrientBadgeClass.
  split; [|split; [|split]].
  - intros ->. repeat split.
  - intros H5 H10. apply num_le_not_gt in H10. rewrite H10, H5. repeat split.
  - intros H5. apply num_le_not_gt in H5.
    assert (H10 : num_gt amount (int 10) = false).
    { destruct (num_gt amount (int 10)) eqn:H; [|reflexivity].
      apply (@num_gt_trans_int amount 10%Z 5%Z) in H; [congruence | lia]. }
    rewrite H10, H5. repeat split.
  - repeat split.
Qed.

Lemma nutrient_status_cut_points_witness :
  nutrientStatus (int 10) = lit "Good"
  /\ nutrientBadgeClass (int 10) = lit "bg-yellow-100 text-yellow-800".
Proof.
  destruct (nutrient_status_cut_points (int 10)) as [_ [Hgood _]].
  apply Hgood; reflexivity.
Defined.

(** ** Quick selection has no guard (C10) *)

Lemma encode_blank (w : jsstring) :
  forallb isWhiteSpace w = true -> encodeURIComponent (trim w) = Some [].
Proof. intros H. apply trim_nil_iff in H. rewrite H. reflexivity. Qed.

(** C10, as amended.  [handleQuickAnalysis] has no guard on its argument:
    for every string it raises the busy flag and enters the request phase,
    and it never takes the exit of [analyzeFood] that only stores 'Please
    enter a food item'.  It dispatches its request whenever the trimmed
    argument can be escaped, that is, whenever it has no unpaired surrogate;
    for an argument of white space only the request goes to the bare
    address [http://localhost:8000/api/analyze/].  Each of the eight
    suggestions is a non-empty name without surrounding white space that can
    be escaped, so on the suggestions a request is always dispatched for a
    non-empty query. *)
Theorem quick_pick_unguarded (E : Engine) (net : Network) (food : jsstring) :
  (exists rest,
      trace (handleQuickAnalysis E net food)
      = [SetError []; SetFoodItem (toLowerCase E food); SetLoading true] ++ rest)
  /\ trace (handleQuickAnalysis E net food) <> [SetError (lit "Please enter a food item")]
  /\ (forall target,
        encodeURIComponent (trim food) = Some target ->
        fetched (trace (handleQuickAnalysis E net food))
        = [quickOrigin ++ target])
  /\ (forallb isWhiteSpace food = true ->
      fetched (trace (handleQuickAnalysis E net food)) = [quickOrigin])
  /\ length quickSuggestions = 8%nat
  /\ Forall (fun name =>
               name <> [] /\ trim name = name
               /\ encodeURIComponent name <> None)
            quickSuggestions.
Proof.
  rewrite handleQuickAnalysis_trace. unfold trace, fst.
  split; [|split; [|split; [|split; [|split]]]].
  - eexists. reflexivity.
  - cbn [app]. discriminate.
  - intros target Henc.
    rewrite !fetched_app, requestEvents_fetched, Henc. reflexivity.
  - intros Hblank.
    rewrite !fetched_app, requestEvents_fetched, (encode_blank _ Hblank).
    cbn [fetched flat_map app]. rewrite app_nil_r. reflexivity.
  - reflexivity.
  - unfold quickSuggestions.
    repeat (apply Forall_cons;
            [split; [|split]; vm_compute; [discriminate | reflexivity
                                           | discriminate] |]).
    apply Forall_nil.
Qed.

Lemma quick_pick_unguarded_witness :
  fetched (trace (handleQuickAnalysis asciiEngine unreachable [32; 9]%N))
  = [lit "http://localhost:8000/api/analyze/"].
Proof.
  destruct (quick_pick_unguarded asciiEngine unreachable [32; 9]%N)
    as [_ [_ [_ [Hblank _]]]].
  apply Hblank. reflexivity.
Defined.

(** C10, as stated, fails: a string with an unpaired surrogate makes
    [encodeURIComponent] throw inside [try], and no request is dispatched. *)
Lemma quick_pick_may_not_dispatch :
  ~ (forall (E : Engine) (net : Network) (food : jsstring),
        fetched (trace (handleQuickAnalysis E net food)) <> []).
Proof.
  intros Hclaim.
  apply (Hclaim asciiEngine unreachable [55296%N]).
  vm_compute. reflexivity.
Qed.

(** ** The success path and the scenario of the specification *)

(** A request that passed the guard, got a success status and a body with a
    truthy [detailed_breakdown] replaces the stored result, leaves the error
    slot empty and clears the busy flag. *)
Lemma success_replaces_result (E : Engine) (net : Network) (st : ViewState)
    (a : Action) (target : jsstring) (resp : Response) (data : value) :
  validates st a = true ->
  encodeURIComponent (trim (queryOf st a)) = Some target ->
  net (originOf a ++ target) = inr resp ->
  ok resp = true ->
  json resp = inr data ->
  badShape data = false ->
  nutritionData (finalState st (handle E net st a)) = data
  /\ error (finalState st (handle E net st a)) = []
  /\ loading (finalState st (handle E net st a)) = false.
Proof.
  intros Hv Henc Hnet Hok Hjson Hshape.
  unfold finalState. rewrite handle_trace, Hv. unfold trace, fst.
  unfold requestEvents, replyEvents. rewrite Henc, Hnet, Hok, Hjson, Hshape.
  rewrite !applyTrace_app.
  destruct (preamble_frame E st a) as [_ Herr].
  cbn. rewrite Herr. split; [reflexivity | split; reflexivity].
Qed.

(** Query ' Banana ' answered with the banana record: not busy, no error,
    score 75 in the 'Good Option' tier, 89 kcal marked 'High'. *)
Example banana_scenario :
  let final := finalState bananaState
                 (analyzeFood asciiEngine (serving bananaResult) bananaState) in
  loading final = false
  /\ error final = []
  /\ nutritionData final = bananaResult
  /\ getProp (nutritionData final) (lit "health_score") = VNumber (int 75)
  /\ getScoreDescription (int 75) = lit "Good Option"
  /\ nutrientStatus (int 89) = lit "High".
Proof. vm_compute. repeat split. Qed.

(** * Further properties of the handlers *)

(** ** More on trimming and escaping *)

Lemma dropWhile_app_all (p : N -> bool) (w s : jsstring) :
  forallb p w = true -> dropWhile p (w ++ s) = dropWhile p s.
Proof.
  induction w as [|c w IH]; cbn [app forallb dropWhile]; [reflexivity|].
  intros H. apply andb_true_iff in H as [Hc Hw]. rewrite Hc. auto.
Qed.

Lemma dropWhile_app_keep (p : N -> bool) (s t : jsstring) :
  dropWhile p s <> [] -> dropWhile p (s ++ t) = dropWhile p s ++ t.
Proof.
  induction s as [|c s IH]; cbn [app dropWhile]; [congruence|].
  destruct (p c); [exact IH | reflexivity].
Qed.

(** White space put around a string does not change what [trim] returns. *)
Lemma trim_pad (lead s trail : jsstring) :
  forallb isWhiteSpace lead = true ->
  forallb isWhiteSpace trail = true ->
  trim (lead ++ s ++ trail) = trim s.
Proof.
  intros Hlead Htrail. unfold trim, trimEnd, trimStart.
  rewrite dropWhile_app_all by exact Hlead.
  destruct (dropWhile isWhiteSpace s) as [|c core] eqn:Hs.
  - apply dropWhile_nil_all in Hs.
    rewrite (@dropWhile_all isWhiteSpace (s ++ trail)); [reflexivity|].
    rewrite forallb_app, Hs, Htrail. reflexivity.
  - rewrite dropWhile_app_keep by (rewrite Hs; discriminate).
    rewrite Hs, rev_app_distr, dropWhile_app_all; [reflexivity|].
    rewrite forallb_rev. exact Htrail.
Qed.

Lemma trim_idempotent (s : jsstring) : trim (trim s) = trim s.
Proof.
  destruct (trim_decompose s) as [lead [trail [Hs [Hlead Htrail]]]].
  rewrite Hs at 2. symmetry. apply trim_pad; assumption.
Qed.

(** The trimmed string has a visible character exactly when the string
    has one. *)
Lemma trim_truthy_iff (s : jsstring) :
  str_truthy (trim s) = true
  <-> exists c, In c s /\ isWhiteSpace c = false.
Proof.
  split.
  - intros H. destruct (forallb isWhiteSpace s) eqn:Hall.
    + apply trim_nil_iff in Hall. rewrite Hall in H. discriminate.
    + assert (Hex : existsb (fun c => negb (isWhiteSpace c)) s = true).
      { clear H. induction s as [|c s IH]; [discriminate|].
        cbn [forallb existsb] in *.
        destruct (isWhiteSpace c); cbn in *; auto. }
      apply existsb_exists in Hex as [c [Hin Hc]].
      exists c. split; [exact Hin | apply negb_true_iff; exact Hc].
  - intros [c [Hin Hc]].
    destruct (str_truthy (trim s)) eqn:H; [reflexivity|].
    apply str_truthy_false, trim_nil_iff in H.
    rewrite forallb_forall in H. rewrite (H c Hin) in Hc. discriminate.
Qed.

Lemma unreserved_not_surrogate (c : N) :
  isUnreserved c = true ->
  isLowSurrogate c = false /\ isHighSurrogate c = false.
Proof.
  intros H. split; apply not_true_is_false; intros H'; charset; lia.
Qed.

Lemma option_map_none {A B} (f : A -> B) (o : option A) :
  option_map f o = None <-> o = None.
Proof. destruct o; cbn; split; congruence. Qed.

(** [encodeURIComponent] throws exactly on a string with an unpaired
    surrogate. *)
Lemma encode_none_pair (s : jsstring) :
  (encodeURIComponent s = None <-> wellPaired s = false)
  /\ (forall c, encodeURIComponent (c :: s) = None
                <-> wellPaired (c :: s) = false).
Proof.
  induction s as [|d rest [IH1 IH2]].
  - split; [cbn; split; discriminate|].
    intros c. cbn.
    destruct (isUnreserved c) eqn:Hu.
    { destruct (unreserved_not_surrogate c Hu) as [-> ->].
      cbn. split; discriminate. }
    destruct (isLowSurrogate c); [split; reflexivity|].
    destruct (isHighSurrogate c); [split; reflexivity|].
    cbn. split; discriminate.
  - split; [apply IH2|].
    intros c. cbn [encodeURIComponent wellPaired].
    destruct (isUnreserved c) eqn:Hu.
    { destruct (unreserved_not_surrogate c Hu) as [-> ->].
      rewrite option_map_none. apply IH2. }
    destruct (isLowSurrogate c); [split; reflexivity|].
    destruct (isHighSurrogate c).
    { destruct (isLowSurrogate d); cbn [andb]; [|split; reflexivity].
      rewrite option_map_none. exact IH1. }
    rewrite option_map_none. apply IH2.
Qed.

Lemma encode_none_iff (s : jsstring) :
  encodeURIComponent s = None <-> wellPaired s = false.
Proof. apply encode_none_pair. Qed.

Lemma encode_some_iff (s : jsstring) :
  (exists target, encodeURIComponent s = Some target) <-> wellPaired s = true.
Proof.
  pose proof (encode_none_iff s) as [Hn Hw].
  destruct (encodeURIComponent s) as [t|]; destruct (wellPaired s).
  - split; [reflexivity | eauto].
  - specialize (Hw eq_refl). discriminate.
  - specialize (Hn eq_refl). discriminate.
  - split; [intros [t Ht]; discriminate | discriminate].
Qed.

Lemma codeUnits_trim (s : jsstring) :
  forallb isCodeUnit s = true -> forallb isCodeUnit (trim s) = true.
Proof.
  intros H. destruct (trim_decompose s) as [lead [trail [Hs _]]].
  rewrite Hs, !forallb_app in H.
  apply andb_true_iff in H as [_ H]. apply andb_true_iff in H as [H _].
  exact H.
Qed.

(** ** The state a handler leaves *)

Lemma caught_frame (s : ViewState) (err : JsError) :
  foodItem (applyTrace s (caughtEvents err)) = foodItem s
  /\ darkMode (applyTrace s (caughtEvents err)) = darkMode s.
Proof. split; reflexivity. Qed.

(** The request phase and the final [setLoading(false)] leave the query text
    and the theme alone. *)
Lemma request_frame (E : Engine) (net : Network) (origin query named : jsstring)
    (s : ViewState) :
  foodItem (applyTrace s (requestEvents E net origin query named
                            ++ [SetLoading false])) = foodItem s
  /\ darkMode (applyTrace s (requestEvents E net origin query named
                               ++ [SetLoading false])) = darkMode s.
Proof.
  destruct (requestEvents_shape E net origin query named)
    as [[err [_ ->]] | [[target [err [_ ->]]] | [target [data [_ ->]]]]];
    split; reflexivity.
Qed.

(** The query text an action leaves on display. *)
Lemma handle_frame (E : Engine) (net : Network) (st : ViewState) (a : Action) :
  foodItem (finalState st (handle E net st a))
  = match a with
    | Search => foodItem st
    | QuickPick food => toLowerCase E food
    end
  /\ darkMode (finalState st (handle E net st a)) = darkMode st.
Proof.
  unfold finalState. rewrite handle_trace. unfold trace, fst.
  destruct a as [|food]; cbn [validates preamble].
  - destruct (str_truthy (trim (foodItem st))); [|split; reflexivity].
    rewrite applyTrace_app.
    destruct (request_frame E net (originOf Search) (trim (queryOf st Search))
                (queryOf st Search)
                (applyTrace st [SetLoading true; SetError []])) as [-> ->].
    split; reflexivity.
  - rewrite applyTrace_app.
    destruct (request_frame E net (originOf (QuickPick food))
                (trim (queryOf st (QuickPick food)))
                (queryOf st (QuickPick food))
                (applyTrace st [SetError []; SetFoodItem (toLowerCase E food);
                                SetLoading true])) as [-> ->].
    split; reflexivity.
Qed.

Lemma stored_in_caught (err : JsError) (d : value) :
  ~ In (SetNutritionData d) (caughtEvents err).
Proof. intros [H|[H|[]]]; discriminate. Qed.

Lemma stored_in_preamble (E : Engine) (a : Action) (d : value) :
  ~ In (SetNutritionData d) (preamble E a).
Proof.
  destruct a; cbn; intros H;
    repeat (destruct H as [H|H]; [discriminate|]); exact H.
Qed.

(** A submission past the guard ends in one of two ways: a body is stored
    and the error slot is empty, or nothing is stored and the error slot is
    not empty. *)
Lemma submission_outcome (E : Engine) (net : Network) (st : ViewState)
    (a : Action) :
  validates st a = true ->
  (exists data,
      In (SetNutritionData data) (trace (handle E net st a))
      /\ badShape data = false
      /\ nutritionData (finalState st (handle E net st a)) = data
      /\ error (finalState st (handle E net st a)) = [])
  \/ ((forall data, ~ In (SetNutritionData data) (trace (handle E net st a)))
      /\ nutritionData (finalState st (handle E net st a)) = nutritionData st
      /\ str_truthy (error (finalState st (handle E net st a))) = true).
Proof.
  intros Hv.
  destruct (encodeURIComponent (trim (queryOf st a))) as [target|] eqn:Henc.
  2:{ right. pose proof (@EscapeFails net st a Hv Henc) as Hfail.
      destruct (failure_state E Hfail) as [Hd [He _]].
      split; [|split; assumption].
      intros data. rewrite handle_trace, Hv. unfold trace, fst, requestEvents.
      rewrite Henc. intros Hin.
      apply in_app_or in Hin as [Hin|Hin];
        [exact (@stored_in_preamble _ _ _ Hin)|].
      apply in_app_or in Hin as [Hin|[Hin|[]]];
        [exact (@stored_in_caught _ _ Hin) | discriminate]. }
  assert (Hcaught : forall err,
             requestEvents E net (originOf a) (trim (queryOf st a)) (queryOf st a)
             = Fetch (originOf a ++ target) :: caughtEvents err ->
             forall data, ~ In (SetNutritionData data) (trace (handle E net st a))).
  { intros err Hreq data. rewrite handle_trace, Hv. unfold trace, fst.
    rewrite Hreq. intros Hin.
    apply in_app_or in Hin as [Hin|Hin];
      [exact (@stored_in_preamble _ _ _ Hin)|].
    apply in_app_or in Hin as [[Hin|Hin]|[Hin|[]]];
      [discriminate | exact (@stored_in_caught _ _ Hin) | discriminate]. }
  destruct (net (originOf a ++ target)) as [err|resp] eqn:Hnet.
  { right. pose proof (@TransportFails net st a target err Hv Henc Hnet) as Hf.
    destruct (failure_state E Hf) as [Hd [He _]].
    split; [|split; assumption].
    apply (Hcaught err). unfold requestEvents, replyEvents.
    rewrite Henc, Hnet. reflexivity. }
  destruct (ok resp) eqn:Hok.
  2:{ right. pose proof (@StatusFails net st a target resp Hv Henc Hnet Hok) as Hf.
      destruct (failure_state E Hf) as [Hd [He _]].
      split; [|split; assumption].
      apply (Hcaught (failedToAnalyze (queryOf st a))).
      unfold requestEvents, replyEvents. rewrite Henc, Hnet, Hok. reflexivity. }
  destruct (json resp) as [err|data] eqn:Hjson.
  { right.
    pose proof (@BodyFails net st a target resp err Hv Henc Hnet Hok Hjson) as Hf.
    destruct (failure_state E Hf) as [Hd [He _]].
    split; [|split; assumption].
    apply (Hcaught err). unfold requestEvents, replyEvents.
    rewrite Henc, Hnet, Hok, Hjson. reflexivity. }
  destruct (badShape data) eqn:Hshape.
  { right.
    pose proof (@ShapeFails net st a target resp data Hv Henc Hnet Hok Hjson
                  Hshape) as Hf.
    destruct (failure_state E Hf) as [Hd [He _]].
    split; [|split; assumption].
    apply (Hcaught invalidResponse). unfold requestEvents, replyEvents.
    rewrite Henc, Hnet, Hok, Hjson, Hshape. reflexivity. }
  left. exists data.
  destruct (@success_replaces_result E net st a target resp data Hv Henc Hnet
              Hok Hjson Hshape)
    as [Hd [He _]].
  split; [|split; [exact Hshape | split; assumption]].
  rewrite handle_trace, Hv. unfold trace, fst, requestEvents, replyEvents.
  rewrite Henc, Hnet, Hok, Hjson, Hshape.
  apply in_or_app. right. cbn. auto.
Qed.

(** ** The success path (X1) *)

(** X1. When the request passes the guard, the status is a success and the
    body has a truthy [detailed_breakdown], the handler does its preamble,
    one fetch, one [setNutritionData] with the body as parsed, and
    [setLoading(false)], in that order.  The state it leaves is fully
    determined: the body is stored, the error slot is empty, the busy flag
    is down, the theme is as before, and the query text is what it was for
    [analyzeFood] and the lower-cased pick for [handleQuickAnalysis]. *)
Theorem success_stores_body (E : Engine) (net : Network) (st : ViewState)
    (a : Action) (target : jsstring) (resp : Response) (data : value) :
  validates st a = true ->
  encodeURIComponent (trim (queryOf st a)) = Some target ->
  net (originOf a ++ target) = inr resp ->
  ok resp = true ->
  json resp = inr data ->
  badShape data = false ->
  trace (handle E net st a)
  = preamble E a
    ++ [Fetch (originOf a ++ target); SetNutritionData data; SetLoading false]
  /\ finalState st (handle E net st a)
     = mkState (match a with
                | Search => foodItem st
                | QuickPick food => toLowerCase E food
                end)
               false data [] (darkMode st).
Proof.
  intros Hv Henc Hnet Hok Hjson Hshape.
  assert (Htrace : trace (handle E net st a)
                   = preamble E a
                     ++ [Fetch (originOf a ++ target); SetNutritionData data;
                         SetLoading false]).
  { rewrite handle_trace, Hv. unfold trace, fst, requestEvents, replyEvents.
    rewrite Henc, Hnet, Hok, Hjson, Hshape. reflexivity. }
  split; [exact Htrace|].
  unfold finalState. rewrite Htrace.
  destruct a; reflexivity.
Qed.

Lemma success_stores_body_witness :
  trace (handle asciiEngine (serving bananaResult) shownState
                (QuickPick (lit "Salmon")))
  = [SetError []; SetFoodItem (lit "salmon"); SetLoading true;
     Fetch (lit "http://localhost:8000/api/analyze/Salmon");
     SetNutritionData bananaResult; SetLoading false]
  /\ finalState shownState
       (handle asciiEngine (serving bananaResult) shownState
               (QuickPick (lit "Salmon")))
     = mkState (lit "salmon") false bananaResult [] false.
Proof.
  destruct (@success_stores_body asciiEngine (serving bananaResult) shownState
              (QuickPick (lit "Salmon")) (lit "Salmon")
              (mkResponse true (inr bananaResult)) bananaResult
              eq_refl eq_refl eq_refl eq_refl eq_refl eq_refl)
    as [Htrace Hstate].
  split.
  - rewrite Htrace. vm_compute. reflexivity.
  - rewrite Hstate. vm_compute. reflexivity.
Defined.

(** ** Result and error exclude each other after a run (X2) *)

(** X2. After any run of either handler, the error slot is empty exactly
    when the run stored a body.  So a run never ends with a fresh result and
    a fresh error together, and never with neither. *)
Theorem error_empty_iff_stored (E : Engine) (net : Network) (st : ViewState)
    (a : Action) :
  error (finalState st (handle E net st a)) = []
  <-> exists data, In (SetNutritionData data) (trace (handle E net st a)).
Proof.
  destruct (validates st a) eqn:Hv.
  - destruct (submission_outcome E net st a Hv)
      as [[data [Hin [_ [_ Herr]]]] | [Hnone [_ Herr]]].
    + split; [eauto | intros _; exact Herr].
    + split.
      * intros Hnil. rewrite Hnil in Herr. discriminate.
      * intros [data Hin]. destruct (Hnone data Hin).
  - unfold finalState. rewrite handle_trace, Hv. unfold trace, fst. split.
    + intros H. vm_compute in H. discriminate.
    + intros [data [H|[]]]. discriminate.
Qed.

(** ** How many requests a run sends (X3) *)

(** X3. A run of either handler sends exactly one request when it passes
    the guard and the trimmed query has no unpaired surrogate, and none
    otherwise.  It never sends a second one, whatever the backend answers. *)
Theorem request_count (E : Engine) (net : Network) (st : ViewState)
    (a : Action) :
  length (fetched (trace (handle E net st a)))
  = if validates st a && wellPaired (trim (queryOf st a)) then 1%nat else 0%nat.
Proof.
  rewrite handle_trace. unfold trace, fst.
  destruct (validates st a); [|reflexivity].
  rewrite !fetched_app, requestEvents_fetched.
  assert (Hpre : fetched (preamble E a) = []) by (destruct a; reflexivity).
  rewrite Hpre. cbn [andb app].
  destruct (encodeURIComponent (trim (queryOf st a))) as [target|] eqn:Henc.
  - assert (Hw : wellPaired (trim (queryOf st a)) = true)
      by (apply encode_some_iff; eauto).
    rewrite Hw. reflexivity.
  - apply encode_none_iff in Henc. rewrite Henc. reflexivity.
Qed.

(** ** A query that cannot be escaped (X4) *)

(** X4. When the trimmed query has an unpaired surrogate, a run past the
    guard sends nothing: [encodeURIComponent] throws inside [try], the
    error slot gets the message of that URIError (or the generic text if the
    engine's message is empty), the busy flag is cleared and the stored
    result is untouched. *)
Theorem unescapable_query (E : Engine) (net : Network) (st : ViewState)
    (a : Action) :
  validates st a = true ->
  wellPaired (trim (queryOf st a)) = false ->
  trace (handle E net st a)
  = preamble E a
    ++ [ConsoleError (lit "Analysis error:") (mkError (uriErrorMessage E));
        SetError (str_or (uriErrorMessage E)
                    (lit "Failed to analyze food. Please try again."));
        SetLoading false]
  /\ error (finalState st (handle E net st a))
     = str_or (uriErrorMessage E)
         (lit "Failed to analyze food. Please try again.")
  /\ loading (finalState st (handle E net st a)) = false
  /\ nutritionData (finalState st (handle E net st a)) = nutritionData st.
Proof.
  intros Hv Hw. apply encode_none_iff in Hw.
  assert (Htrace : trace (handle E net st a)
                   = preamble E a
                     ++ caughtEvents (mkError (uriErrorMessage E))
                     ++ [SetLoading false]).
  { rewrite handle_trace, Hv. unfold trace, fst, requestEvents.
    rewrite Hw. reflexivity. }
  split; [exact Htrace|].
  unfold finalState. rewrite Htrace.
  destruct (caught_submission E st a [] (mkError (uriErrorMessage E)) nil_frame)
    as [H1 [H2 H3]].
  cbn [app] in H1, H2, H3 |- *.
  split; [exact H2 | split; [exact H3 | exact H1]].
Qed.

Lemma unescapable_query_witness :
  fetched (trace (handle asciiEngine (serving bananaResult) shownState
                         (QuickPick [97; 56320]%N))) = []
  /\ error (finalState shownState
              (handle asciiEngine (serving bananaResult) shownState
                      (QuickPick [97; 56320]%N)))
     = lit "URI malformed"
  /\ nutritionData
       (finalState shownState
          (handle asciiEngine (serving bananaResult) shownState
                  (QuickPick [97; 56320]%N)))
     = bananaResult.
Proof.
  destruct (@unescapable_query asciiEngine (serving bananaResult) shownState
              (QuickPick [97; 56320]%N) eq_refl eq_refl)
    as [Htrace [Herr [_ Hdata]]].
  split; [|split].
  - rewrite Htrace. reflexivity.
  - rewrite Herr. vm_compute. reflexivity.
  - exact Hdata.
Defined.

(** ** What a request address can contain (X5) *)

Lemma uriChar_not_delimiter (c : N) :
  isUriChar c = true ->
  c <> 47%N /\ c <> 63%N /\ c <> 35%N /\ c <> 38%N /\ c <> 61%N
  /\ isWhiteSpace c = false.
Proof.
  intros H. unfold isUriChar in H.
  repeat split; try (apply not_true_is_false); intros H'; charset; lia.
Qed.

(** X5. For a query of 16-bit code units, the address of every request a
    handler sends is its fixed prefix followed by unreserved characters and
    percent signs only.  The query can therefore add no slash, question
    mark, hash, ampersand, equals sign or white space to the address: it
    stays one path segment under [/api/analyze/]. *)
Theorem request_address_is_one_segment (E : Engine) (net : Network)
    (st : ViewState) (a : Action) (url : jsstring) :
  forallb isCodeUnit (queryOf st a) = true ->
  In url (fetched (trace (handle E net st a))) ->
  exists target,
    url = originOf a ++ target
    /\ forallb isUriChar target = true
    /\ (forall c, In c target ->
          c <> 47%N /\ c <> 63%N /\ c <> 35%N /\ c <> 38%N /\ c <> 61%N
          /\ isWhiteSpace c = false).
Proof.
  intros Hwf Hin.
  rewrite handle_trace in Hin. unfold trace, fst in Hin.
  destruct (validates st a); [|destruct Hin].
  rewrite !fetched_app, requestEvents_fetched in Hin.
  assert (Hpre : fetched (preamble E a) = []) by (destruct a; reflexivity).
  rewrite Hpre in Hin. cbn [app] in Hin.
  destruct (encodeURIComponent (trim (queryOf st a))) as [target|] eqn:Henc;
    [|destruct Hin].
  destruct Hin as [<-|[]].
  pose proof (encode_uri _ (codeUnits_trim _ Hwf) Henc) as Huri.
  exists target. split; [reflexivity | split; [exact Huri|]].
  intros c Hc. apply uriChar_not_delimiter.
  rewrite forallb_forall in Huri. apply Huri. exact Hc.
Qed.

Lemma request_address_is_one_segment_witness :
  exists target,
    lit "/api/analyze/fish%20%26%20chips%2F..%2Fadmin%3Fx%3D1%23top"
    = originOf Search ++ target
    /\ forallb isUriChar target = true
    /\ (forall c, In c target ->
          c <> 47%N /\ c <> 63%N /\ c <> 35%N /\ c <> 38%N /\ c <> 61%N
          /\ isWhiteSpace c = false).
Proof.
  apply (@request_address_is_one_segment asciiEngine unreachable slashState
           Search).
  - vm_compute. reflexivity.
  - vm_compute. left. reflexivity.
Defined.

(** ** When the search runs (X6) *)

(** X6. [analyzeFood] raises the busy flag exactly when the typed text has
    at least one character that is not white space; and exactly then it does
    not stop at the message 'Please enter a food item'. *)
Theorem search_runs_iff_visible_text (E : Engine) (net : Network)
    (st : ViewState) :
  (In (SetLoading true) (trace (analyzeFood E net st))
   <-> exists c, In c (foodItem st) /\ isWhiteSpace c = false)
  /\ (trace (analyzeFood E net st) = [SetError (lit "Please enter a food item")]
      <-> forall c, In c (foodItem st) -> isWhiteSpace c = true).
Proof.
  rewrite analyzeFood_trace. unfold trace, fst.
  rewrite <- trim_truthy_iff.
  destruct (str_truthy (trim (foodItem st))) eqn:Hv.
  - split.
    + split; [reflexivity | intros _; cbn; auto].
    + split.
      * cbn [app]. discriminate.
      * intros Hall. rewrite <- forallb_forall in Hall.
        apply trim_nil_iff in Hall. rewrite Hall in Hv. discriminate.
  - split.
    + split; [|discriminate]. intros [H|[]]. discriminate.
    + split; [|reflexivity]. intros _.
      apply str_truthy_false, trim_nil_iff in Hv.
      rewrite forallb_forall in Hv. exact Hv.
Qed.

(** ** White space around the query (X7) *)

(** X7. White space typed or passed around a query changes nothing in what
    is requested: both handlers send the same requests for
    [lead ++ s ++ trail] as for [s], whenever [lead] and [trail] are white
    space. *)
Theorem padding_is_ignored (E : Engine) (net : Network) (st : ViewState)
    (lead s trail : jsstring) :
  forallb isWhiteSpace lead = true ->
  forallb isWhiteSpace trail = true ->
  fetched (trace (analyzeFood E net
                    (applyEvent st (SetFoodItem (lead ++ s ++ trail)))))
  = fetched (trace (analyzeFood E net (applyEvent st (SetFoodItem s))))
  /\ fetched (trace (handleQuickAnalysis E net (lead ++ s ++ trail)))
     = fetched (trace (handleQuickAnalysis E net s)).
Proof.
  intros Hlead Htrail.
  rewrite !analyzeFood_trace, !handleQuickAnalysis_trace. unfold trace, fst.
  cbn [applyEvent foodItem].
  rewrite (@trim_pad lead s trail Hlead Htrail).
  split.
  - destruct (str_truthy (trim s)); [|reflexivity].
    rewrite !fetched_app, !requestEvents_fetched. reflexivity.
  - rewrite !fetched_app, !requestEvents_fetched. reflexivity.
Qed.

Lemma padding_is_ignored_witness :
  fetched (trace (analyzeFood asciiEngine unreachable
                    (applyEvent initialState
                       (SetFoodItem ([9; 32]%N ++ lit "Kale" ++ [160; 10]%N)))))
  = [lit "/api/analyze/Kale"]
  /\ fetched (trace (handleQuickAnalysis asciiEngine unreachable
                       ([9; 32]%N ++ lit "Kale" ++ [160; 10]%N)))
     = [lit "http://localhost:8000/api/analyze/Kale"].
Proof.
  destruct (@padding_is_ignored asciiEngine unreachable initialState
              [9; 32]%N (lit "Kale") [160; 10]%N eq_refl eq_refl)
    as [Hsubmit Hquick].
  split.
  - rewrite Hsubmit. vm_compute. reflexivity.
  - rewrite Hquick. vm_compute. reflexivity.
Defined.

(** ** A body that cannot be parsed (X8) *)

(** X8. When the status is a success but [response.json()] rejects, the
    error slot gets the message of that rejection (the generic text if it
    is empty), not the fixed 'Invalid response from server'; the busy flag
    is cleared and the stored result is untouched. *)
Theorem unreadable_body_message (E : Engine) (net : Network) (st : ViewState)
    (a : Action) (target : jsstring) (resp : Response) (err : JsError) :
  validates st a = true ->
  encodeURIComponent (trim (queryOf st a)) = Some target ->
  net (originOf a ++ target) = inr resp ->
  ok resp = true ->
  json resp = inl err ->
  error (finalState st (handle E net st a))
  = str_or (message err) (lit "Failed to analyze food. Please try again.")
  /\ loading (finalState st (handle E net st a)) = false
  /\ nutritionData (finalState st (handle E net st a)) = nutritionData st.
Proof.
  intros Hv Henc Hnet Hok Hjson.
  unfold finalState. rewrite handle_trace, Hv. unfold trace, fst.
  unfold requestEvents, replyEvents. rewrite Henc, Hnet, Hok, Hjson.
  destruct (caught_submission E st a [Fetch (originOf a ++ target)] err
              (fetch_frame _)) as [H1 [H2 H3]].
  cbn [app] in H1, H2, H3 |- *.
  split; [exact H2 | split; [exact H3 | exact H1]].
Qed.

Lemma unreadable_body_message_witness :
  error (finalState shownState (handle asciiEngine garbling shownState Search))
  = lit "Unexpected token < in JSON at position 0"
  /\ loading (finalState shownState
                (handle asciiEngine garbling shownState Search)) = false
  /\ nutritionData (finalState shownState
                      (handle asciiEngine garbling shownState Search))
     = bananaResult.
Proof.
  destruct (@unreadable_body_message asciiEngine garbling shownState Search
              (lit "pizza") garbledResponse
              (mkError (lit "Unexpected token < in JSON at position 0"))
              eq_refl eq_refl eq_refl eq_refl eq_refl) as [Herr Hrest].
  split; [|exact Hrest].
  rewrite Herr. vm_compute. reflexivity.
Defined.

(** ** What the handlers leave alone (X9, X10) *)

(** X9. On every path, [analyzeFood] leaves the query text as typed, and
    [handleQuickAnalysis] leaves it at the lower-cased pick, also when the
    request fails; neither handler changes the theme. *)
Theorem handlers_keep_query_and_theme (E : Engine) (net : Network)
    (st : ViewState) (food : jsstring) :
  foodItem (finalState st (analyzeFood E net st)) = foodItem st
  /\ foodItem (finalState st (handleQuickAnalysis E net food))
     = toLowerCase E food
  /\ darkMode (finalState st (analyzeFood E net st)) = darkMode st
  /\ darkMode (finalState st (handleQuickAnalysis E net food)) = darkMode st.
Proof.
  destruct (handle_frame E net st Search) as [H1 H2].
  destruct (handle_frame E net st (QuickPick food)) as [H3 H4].
  cbn [handle] in H1, H2, H3, H4. auto.
Qed.

Lemma applyTrace_toggle (st : ViewState) (t : list Event) :
  applyTrace (toggleDarkMode st) t = toggleDarkMode (applyTrace st t).
Proof.
  revert st. induction t as [|ev t IH]; intros st; [reflexivity|].
  cbn [applyTrace fold_left]. fold (applyTrace (applyEvent st ev) t).
  fold (applyTrace (applyEvent (toggleDarkMode st) ev) t).
  rewrite <- IH. f_equal. destruct ev; reflexivity.
Qed.

(** X10. The theme has no part in an analysis: a handler run after the
    theme button does the same things as before it and ends in the same
    state with the theme switched.  Pressing the theme button twice brings
    the state back. *)
Theorem theme_is_independent (E : Engine) (net : Network) (st : ViewState)
    (a : Action) :
  trace (handle E net (toggleDarkMode st) a) = trace (handle E net st a)
  /\ finalState (toggleDarkMode st) (handle E net (toggleDarkMode st) a)
     = toggleDarkMode (finalState st (handle E net st a))
  /\ toggleDarkMode (toggleDarkMode st) = st.
Proof.
  assert (Hsame : handle E net (toggleDarkMode st) a = handle E net st a).
  { destruct a; reflexivity. }
  split; [rewrite Hsame; reflexivity | split].
  - unfold finalState. rewrite Hsame. apply applyTrace_toggle.
  - destruct st as [f l d e dm]. unfold toggleDarkMode. cbn.
    rewrite negb_involutive. reflexivity.
Qed.

(** * The page around the handlers *)

(** ** What the shape check lets through (X11) *)

Lemma badShape_wellShaped (data : value) :
  badShape data = negb (isWellShaped data).
Proof.
  unfold badShape, isWellShaped, getProp.
  destruct data as [| |b|n|s|items|props];
    try (change (truthy VUndefined) with false; cbn [negb];
         apply orb_true_r).
  reflexivity.
Qed.

Lemma wellShaped_truthy (data : value) :
  isWellShaped data = true -> truthy data = true.
Proof. destruct data; cbn; congruence. Qed.

(** X11. The shape check [!data || !data.detailed_breakdown] lets a body
    through exactly when it is an object whose [detailed_breakdown] is
    truthy.  Null, numbers, strings, booleans and arrays are refused, and so
    is an object whose [detailed_breakdown] is null, false, zero or the
    empty string; nothing is asked of the breakdown beyond truthiness, nor
    of any other field. *)
Theorem shape_check_accepts (data : value) :
  (badShape data = false
   <-> exists props,
         data = VObject props
         /\ truthy (lookup (lit "detailed_breakdown") props) = true)
  /\ (forall items, badShape (VArray items) = true)
  /\ (forall s, badShape (VString s) = true)
  /\ (forall n, badShape (VNumber n) = true)
  /\ (forall b, badShape (VBool b) = true)
  /\ (forall props other,
        lookup (lit "detailed_breakdown") props = VObject other ->
        badShape (VObject props) = false).
Proof.
  split; [|split; [|split; [|split; [|split]]]].
  - rewrite badShape_wellShaped, negb_false_iff. unfold isWellShaped. split.
    + destruct data; try discriminate. eauto.
    + intros [props [-> H]]. exact H.
  - intros items. rewrite badShape_wellShaped. reflexivity.
  - intros s. rewrite badShape_wellShaped. reflexivity.
  - intros n. rewrite badShape_wellShaped. reflexivity.
  - intros b. rewrite badShape_wellShaped. reflexivity.
  - intros props other H. rewrite badShape_wellShaped. cbn. rewrite H.
    reflexivity.
Qed.

(** ** Sessions (X12, X13, X14) *)













(** ** The heading of the result panel (X15, X16) *)

(** X15. The heading shows the [food] of the stored result with its first
    code unit upper-cased and the rest exactly as received: for a name that
    starts with an ASCII character the result is that character through
    [a-z] to [A-Z] followed by the unchanged tail, so it has the length of
    the name and capitalising it again changes nothing; an empty name gives
    an empty heading. *)
Theorem heading_capitalises_first (upper : jsstring -> jsstring)
    (data : value) (s : jsstring) :
  getProp data (lit "food") = VString s ->
  forallb isAscii (charAt0 s) = true ->
  headingName upper data = Some (List.map asciiUpper (charAt0 s) ++ slice1 s)
  /\ length (List.map asciiUpper (charAt0 s) ++ slice1 s) = length s
  /\ slice1 (List.map asciiUpper (charAt0 s) ++ slice1 s) = slice1 s
  /\ headingName upper
       (VObject [(lit "food",
                  VString (List.map asciiUpper (charAt0 s) ++ slice1 s))])
     = Some (List.map asciiUpper (charAt0 s) ++ slice1 s).
Proof.
  intros Hfood Hascii. unfold headingName. rewrite Hfood.
  unfold toUpperCase at 1. rewrite Hascii.
  split; [reflexivity|].
  destruct s as [|c rest].
  - repeat split.
  - cbn [charAt0 slice1 List.map app length] in *.
    split; [reflexivity | split; [reflexivity|]].
    assert (Hup : isAscii (asciiUpper c) = true).
    { cbn [forallb] in Hascii. apply andb_true_iff in Hascii as [Hc _].
      unfold isAscii, asciiUpper in *. apply N.ltb_lt in Hc. apply N.ltb_lt.
      destruct ((97 <=? c) && (c <=? 122))%N; lia. }
    assert (Hidem : asciiUpper (asciiUpper c) = asciiUpper c).
    { unfold asciiUpper.
      destruct ((97 <=? c) && (c <=? 122))%N eqn:Hc; [|rewrite Hc; reflexivity].
      apply andb_true_iff in Hc as [H1 H2].
      apply N.leb_le in H1. apply N.leb_le in H2.
      destruct ((97 <=? c - 32) && (c - 32 <=? 122))%N eqn:Hc'; [|reflexivity].
      apply andb_true_iff in Hc' as [H3 _]. apply N.leb_le in H3. lia. }
    assert (Hlook : getProp
                      (VObject [(lit "food", VString (asciiUpper c :: rest))])
                      (lit "food") = VString (asciiUpper c :: rest)).
    { vm_compute. reflexivity. }
    rewrite Hlook. unfold toUpperCase. cbn [charAt0 slice1 forallb List.map app].
    rewrite Hup, Hidem. reflexivity.
Qed.

Lemma heading_capitalises_first_witness :
  headingName (fun s => s)
    (VObject [(lit "food", VString (lit "sweet potato"))])
  = Some (lit "Sweet potato").
Proof.
  destruct (@heading_capitalises_first (fun s => s)
              (VObject [(lit "food", VString (lit "sweet potato"))])
              (lit "sweet potato") eq_refl eq_refl) as [Hhead _].
  rewrite Hhead. vm_compute. reflexivity.
Defined.

(** X16. The shape check does not protect the heading: a success-status
    body with a truthy [detailed_breakdown] but no string under [food] is
    stored, the result panel is rendered, and the heading expression
    [nutritionData.food.charAt(0)] throws. *)
Theorem heading_throws_without_name (E : Engine) (net : Network)
    (st : ViewState) (a : Action) (target : jsstring) (resp : Response)
    (data : value) (upper : jsstring -> jsstring) :
  validates st a = true ->
  encodeURIComponent (trim (queryOf st a)) = Some target ->
  net (originOf a ++ target) = inr resp ->
  ok resp = true ->
  json resp = inr data ->
  isWellShaped data = true ->
  (forall s, getProp data (lit "food") <> VString s) ->
  showsResult (finalState st (handle E net st a)) = true
  /\ error (finalState st (handle E net st a)) = []
  /\ headingName upper (nutritionData (finalState st (handle E net st a)))
     = None.
Proof.
  intros Hv Henc Hnet Hok Hjson Hshape Hfood.
  assert (Hbad : badShape data = false).
  { rewrite badShape_wellShaped, Hshape. reflexivity. }
  destruct (@success_replaces_result E net st a target resp data Hv Henc Hnet
              Hok Hjson Hbad) as [Hd [He _]].
  unfold showsResult. rewrite Hd, He.
  split; [apply wellShaped_truthy; exact Hshape | split; [reflexivity|]].
  unfold headingName.
  destruct (getProp data (lit "food")) as [| | | |s| |] eqn:Hget;
    try reflexivity.
  destruct (Hfood s eq_refl).
Qed.

Lemma heading_throws_without_name_witness :
  showsResult (finalState initialState
                 (handle asciiEngine (serving bareResult) initialState
                         (QuickPick (lit "Quinoa")))) = true
  /\ error (finalState initialState
              (handle asciiEngine (serving bareResult) initialState
                      (QuickPick (lit "Quinoa")))) = []
  /\ headingName (fun s => s)
       (nutritionData
          (finalState initialState
             (handle asciiEngine (serving bareResult) initialState
                     (QuickPick (lit "Quinoa"))))) = None.
Proof.
  apply (@heading_throws_without_name asciiEngine (serving bareResult)
           initialState (QuickPick (lit "Quinoa")) (lit "Quinoa")
           (mkResponse true (inr bareResult)) bareResult (fun s => s)).
  - reflexivity.
  - vm_compute. reflexivity.
  - reflexivity.
  - reflexivity.
  - reflexivity.
  - vm_compute. reflexivity.
  - intros s H. vm_compute in H. discriminate.
Defined.

(** ** The nutrient table (X17) *)

(** X17. For a stored result that passed the shape check, a nutrient that is
    missing from the breakdown, or is null or a boolean there, is labelled
    'Low': the comparison turns it into NaN, 0 or 1, none of which is above
    5.  A nutrient given as a number gets the label of that number. *)
Theorem row_status_of_missing_nutrient (C : Coercions) (data : value)
    (key : jsstring) :
  isWellShaped data = true ->
  (getProp (getProp data (lit "detailed_breakdown")) key = VUndefined
   \/ getProp (getProp data (lit "detailed_breakdown")) key = VNull
   \/ exists b,
        getProp (getProp data (lit "detailed_breakdown")) key = VBool b) ->
  rowStatus C data key = Some (lit "Low").
Proof.
  intros Hshape Hmiss. unfold rowStatus.
  destruct data as [| | | | | |props]; try discriminate.
  cbn [isWellShaped getProp] in *.
  destruct (lookup (lit "detailed_breakdown") props) as [| |b|n|s|items|inner]
    eqn:Hlook; try discriminate; cbn [getProp] in Hmiss |- *;
    try (vm_compute; reflexivity).
  destruct Hmiss as [-> | [-> | [[|] ->]]]; vm_compute; reflexivity.
Qed.

Lemma row_status_of_missing_nutrient_witness :
  rowStatus plainCoercions bareResult (lit "protein") = Some (lit "Low").
Proof.
  apply (@row_status_of_missing_nutrient plainCoercions bareResult
           (lit "protein")).
  - vm_compute. reflexivity.
  - left. vm_compute. reflexivity.
Defined.

(** The table of the banana record. *)
Example banana_table :
  tableStatuses plainCoercions bananaResult
  = [Some (lit "High"); Some (lit "Low"); Some (lit "High");
     Some (lit "Low"); Some (lit "Low"); Some (lit "High")].
Proof. vm_compute. reflexivity. Qed.

(** ** Searching after a quick pick (X18) *)

(** X18. After any suggestion was picked, the input box holds its name in
    lower case, so a press on the search button then asks for the
    lower-case name at the relative address [/api/analyze/...]: another
    address than the one the pick itself used, which has the origin
    [http://localhost:8000] and the name as listed. *)
Theorem search_after_quick_pick (E : Engine) (net net' : Network)
    (st : ViewState) (food : jsstring) :
  In food quickSuggestions ->
  exists picked searched,
    encodeURIComponent food = Some picked
    /\ encodeURIComponent (List.map asciiLower food) = Some searched
    /\ picked <> searched
    /\ fetched (trace (handleQuickAnalysis E net food)) = [quickOrigin ++ picked]
    /\ fetched (trace (analyzeFood E net'
                         (finalState st (handleQuickAnalysis E net food))))
       = [submitOrigin ++ searched].
Proof.
  intros Hin.
  assert (Hfacts : exists picked searched,
             encodeURIComponent food = Some picked
             /\ encodeURIComponent (List.map asciiLower food) = Some searched
             /\ picked <> searched
             /\ trim food = food
             /\ toLowerCase E food = List.map asciiLower food
             /\ trim (List.map asciiLower food) = List.map asciiLower food
             /\ str_truthy (List.map asciiLower food) = true).
  { cbn [quickSuggestions In] in Hin.
    repeat (destruct Hin as [<- | Hin];
            [eexists; eexists;
             split; [vm_compute; reflexivity|];
             split; [vm_compute; reflexivity|];
             split; [vm_compute; discriminate|];
             repeat split; vm_compute; reflexivity |]).
    destruct Hin. }
  destruct Hfacts
    as [picked [searched [Hp [Hs [Hne [Htrim [Hlow [Htrim' Htruthy]]]]]]]].
  exists picked, searched.
  split; [exact Hp | split; [exact Hs | split; [exact Hne | split]]].
  - rewrite handleQuickAnalysis_trace. unfold trace, fst.
    rewrite !fetched_app, requestEvents_fetched, Htrim, Hp. reflexivity.
  - destruct (handle_frame E net st (QuickPick food)) as [Hshown _].
    cbn [handle] in Hshown.
    rewrite analyzeFood_trace, Hshown, Hlow, Htrim', Htruthy.
    unfold trace, fst.
    rewrite !fetched_app, requestEvents_fetched, Hs. reflexivity.
Qed.

Lemma search_after_quick_pick_witness :
  exists picked searched,
    encodeURIComponent (lit "Sweet Potato") = Some picked
    /\ encodeURIComponent (List.map asciiLower (lit "Sweet Potato"))
       = Some searched
    /\ picked <> searched
    /\ fetched (trace (handleQuickAnalysis asciiEngine unreachable
                         (lit "Sweet Potato")))
       = [quickOrigin ++ picked]
    /\ fetched (trace (analyzeFood asciiEngine (serving bananaResult)
                         (finalState initialState
                            (handleQuickAnalysis asciiEngine unreachable
                               (lit "Sweet Potato")))))
       = [submitOrigin ++ searched].
Proof.
  apply (@search_after_quick_pick asciiEngine unreachable
           (serving bananaResult) initialState (lit "Sweet Potato")).
  vm_compute. do 7 right. left. reflexivity.
Defined.

(** ** The score display (X19, X20, X21) *)

(** X19. The label, the text colour and the bar colour of a score always
    belong to the same tier, for every number including NaN and the
    infinities.  A stored result whose [health_score] is missing, null or
    false is shown in the last tier: 'Consider Alternatives', in red. *)
Theorem score_display_is_coherent (C : Coercions) (score : number)
    (data : value) :
  ((getScoreDescription score = lit "Excellent Choice"
    /\ getScoreColor score = lit "text-green-500"
    /\ scoreBarClass score = lit "bg-green-500")
   \/ (getScoreDescription score = lit "Good Option"
       /\ getScoreColor score = lit "text-yellow-500"
       /\ scoreBarClass score = lit "bg-yellow-500")
   \/ (getScoreDescription score = lit "Fair Choice"
       /\ getScoreColor score = lit "text-orange-500"
       /\ scoreBarClass score = lit "bg-orange-500")
   \/ (getScoreDescription score = lit "Consider Alternatives"
       /\ getScoreColor score = lit "text-red-500"
       /\ scoreBarClass score = lit "bg-red-500"))
  /\ (getProp data (lit "health_score") = VUndefined
      \/ getProp data (lit "health_score") = VNull
      \/ getProp data (lit "health_score") = VBool false ->
      getScoreDescription (scoreOf C data) = lit "Consider Alternatives"
      /\ getScoreColor (scoreOf C data) = lit "text-red-500"
      /\ scoreBarClass (scoreOf C data) = lit "bg-red-500").
Proof.
  split.
  - unfold getScoreDescription, getScoreColor, scoreBarClass.
    destruct (num_ge score (int 80)); [auto|].
    destruct (num_ge score (int 60)); [auto|].
    destruct (num_ge score (int 40)); auto 6.
  - unfold scoreOf. intros [-> | [-> | ->]]; vm_compute; repeat split.
Qed.

Lemma score_display_is_coherent_witness :
  getScoreDescription (scoreOf plainCoercions bareResult)
  = lit "Consider Alternatives"
  /\ getScoreColor (scoreOf plainCoercions bareResult) = lit "text-red-500"
  /\ scoreBarClass (scoreOf plainCoercions bareResult) = lit "bg-red-500".
Proof.
  destruct (score_display_is_coherent plainCoercions NaN bareResult)
    as [_ Hmissing].
  apply Hmissing. left. vm_compute. reflexivity.
Defined.

Lemma num_le_trans (a b c : number) :
  num_le a b = true -> num_le b c = true -> num_le a c = true.
Proof.
  destruct a as [| | |x], b as [| | |y], c as [| | |z]; cbn;
    try congruence.
  rewrite !Qle_bool_iff. apply Qle_trans.
Qed.

Lemma num_ge_mono (x y t : number) :
  num_le x y = true -> num_ge x t = true -> num_ge y t = true.
Proof.
  unfold num_ge. intros Hxy Htx. exact (@num_le_trans _ _ _ Htx Hxy).
Qed.

Lemma num_gt_mono (x y t : number) :
  num_le x y = true -> num_gt x t = true -> num_gt y t = true.
Proof.
  unfold num_gt.
  destruct t as [| | |t], x as [| | |x], y as [| | |y]; cbn;
    try congruence.
  rewrite !negb_true_iff. intros Hxy Hx.
  apply Qle_bool_iff in Hxy.
  destruct (Qle_bool y t) eqn:Hy; [|reflexivity].
  apply Qle_bool_iff in Hy.
  assert (Hxt : Qle_bool x t = true)
    by (apply Qle_bool_iff; apply (Qle_trans _ _ _ Hxy Hy)).
  congruence.
Qed.

(** X20. The tiers follow the score: of two scores, the higher never gets a
    label of a lower tier. *)
Theorem score_label_is_monotone (x y : number) :
  num_le x y = true ->
  (labelRank (getScoreDescription x) <= labelRank (getScoreDescription y))%nat.
Proof.
  intros Hxy. unfold getScoreDescription.
  destruct (num_ge x (int 80)) eqn:H80.
  { rewrite (@num_ge_mono _ _ _ Hxy H80). apply le_n. }
  destruct (num_ge x (int 60)) eqn:H60.
  { rewrite (@num_ge_mono _ _ _ Hxy H60).
    destruct (num_ge y (int 80)); vm_compute; lia. }
  destruct (num_ge x (int 40)) eqn:H40.
  { rewrite (@num_ge_mono _ _ _ Hxy H40).
    destruct (num_ge y (int 80)); [vm_compute; lia|].
    destruct (num_ge y (int 60)); vm_compute; lia. }
  destruct (num_ge y (int 80)); [vm_compute; lia|].
  destruct (num_ge y (int 60)); [vm_compute; lia|].
  destruct (num_ge y (int 40)); vm_compute; lia.
Qed.

Lemma score_label_is_monotone_witness :
  (labelRank (getScoreDescription (Fin (399 # 10)))
   <= labelRank (getScoreDescription (int 40)))%nat.
Proof.
  apply (@score_label_is_monotone (Fin (399 # 10)) (int 40)).
  reflexivity.
Defined.

(** X21. The status labels follow the amount: of two amounts, the larger
    never gets a lower label. *)
Theorem nutrient_status_is_monotone (x y : number) :
  num_le x y = true ->
  (statusRank (nutrientStatus x) <= statusRank (nutrientStatus y))%nat.
Proof.
  intros Hxy. unfold nutrientStatus.
  destruct (num_gt x (int 10)) eqn:H10.
  { rewrite (@num_gt_mono _ _ _ Hxy H10). apply le_n. }
  destruct (num_gt x (int 5)) eqn:H5.
  { rewrite (@num_gt_mono _ _ _ Hxy H5).
    destruct (num_gt y (int 10)); vm_compute; lia. }
  destruct (num_gt y (int 10)); [vm_compute; lia|].
  destruct (num_gt y (int 5)); vm_compute; lia.
Qed.

Lemma nutrient_status_is_monotone_witness :
  (statusRank (nutrientStatus (int 5))
   <= statusRank (nutrientStatus (Fin (51 # 10))))%nat.
Proof.
  apply (@nutrient_status_is_monotone (int 5) (Fin (51 # 10))).
  reflexivity.
Defined.
